(** * bookbook: combining notebooks into one LaTeX document

    A shallow embedding of [src/bookbook/latex.py] and the properties of
    its chapter loader, heading extractor and combiner.

    Conventions of the embedding.
    - A Python [str] is a Rocq [string]; one [ascii] stands for one code
      point, so the embedding covers texts whose code points are below 256.
      In that range the line boundaries of [str.splitlines] and the white
      space of [str.strip] are the ones listed in [Py.is_linebreak] and
      [Py.isspace].
    - A [NotebookNode] used as a dict (cell and notebook metadata) is a
      [gmap string string]: keys to the JSON text of their values.
    - Exceptions are an explicit error type; a function that can raise
      returns [result].
    - Calls to [log] have no effect on any returned value and are left out. *)

From Stdlib Require Import Ascii String OrderedTypeEx.
From stdpp Require Import base option list strings gmap sorting.

(** ** Python string primitives used by the source *)

Module Py.

Definition LF : ascii := "010"%char.
Definition CR : ascii := "013"%char.

(** Line boundaries recognised by [str.splitlines]:
    \n, \v, \f, \r, \x1c, \x1d, \x1e and \x85. *)
Definition is_linebreak (c : ascii) : bool :=
  match c with
  | "010" | "011" | "012" | "013" | "028" | "029" | "030" | "133" => true
  | _ => false
  end%char.

(** Characters for which [str.isspace] holds:
    \t \n \v \f \r, \x1c..\x1f, space, \x85 and \xa0. *)
Definition isspace (c : ascii) : bool :=
  match c with
  | "009" | "010" | "011" | "012" | "013"
  | "028" | "029" | "030" | "031" | " " | "133" | "160" => true
  | _ => false
  end%char.

(** [s.splitlines()]: the lines of [s] without their terminators; \r\n is
    one terminator, and a terminator at the very end opens no new line. *)
Fixpoint splitlines (s : string) : list string :=
  match s with
  | EmptyString => []
  | String c s' =>
      if is_linebreak c then
        match s' with
        | String c' s'' =>
            if Ascii.eqb c CR && Ascii.eqb c' LF
            then "" :: splitlines s''
            else "" :: splitlines s'
        | EmptyString => [""]
        end
      else
        match splitlines s' with
        | [] => [String c ""]
        | l :: ls => String c l :: ls
        end
  end.

(** [s.startswith(p)] *)
Definition startswith (s p : string) : bool := String.prefix p s.

(** [sep.join(ls)] *)
Definition join (sep : string) (ls : list string) : string :=
  String.concat sep ls.

Fixpoint lstrip (s : string) : string :=
  match s with
  | EmptyString => ""
  | String c s' => if isspace c then lstrip s' else s
  end.

Fixpoint rstrip (s : string) : string :=
  match s with
  | EmptyString => ""
  | String c s' =>
      match rstrip s' with
      | EmptyString => if isspace c then "" else String c ""
      | r => String c r
      end
  end.

(** [s.strip()] *)
Definition strip (s : string) : string := rstrip (lstrip s).

(** [s.rfind(c)], with [None] for Python's -1. *)
Fixpoint rfind (c : ascii) (s : string) : option nat :=
  match s with
  | EmptyString => None
  | String a s' =>
      match rfind c s' with
      | Some i => Some (S i)
      | None => if Ascii.eqb a c then Some 0 else None
      end
  end.

(** The one-character string "\n". *)
Definition NL : string := String LF "".

(** The truth value of a [str]: empty is false. *)
Definition truthy (s : string) : bool :=
  match s with EmptyString => false | _ => true end.

End Py.

(** ** pathlib paths *)

Module Pathlib.

(** A pure path is its sequence of components. *)
Definition Path : Type := list string.

(** [p / child] *)
Definition joinpath (p : Path) (child : string) : Path := p ++ [child].

(** [p.name] *)
Definition name (p : Path) : string := List.last p "".

(** [p.stem]: the name without its last suffix; a dot that opens or ends
    the name starts no suffix. *)
Definition stem (p : Path) : string :=
  let n := name p in
  match Py.rfind "."%char n with
  | Some i =>
      if (0 <? i)%nat && (i <? String.length n - 1)%nat
      then String.substring 0 i n
      else n
  | None => n
  end.

(** [str(p)] *)
Definition str (p : Path) : string := Py.join "/" p.

(** Paths compare as their component sequences do: Python's
    lexicographic comparison of lists of [str], each [str] by code
    points. *)
Fixpoint compare (p q : Path) : comparison :=
  match p, q with
  | [], [] => Eq
  | [], _ :: _ => Lt
  | _ :: _, [] => Gt
  | a :: p', b :: q' =>
      match String.compare a b with
      | Eq => compare p' q'
      | r => r
      end
  end.

Definition le (p q : Path) : Prop := compare p q ≠ Gt.

#[export] Instance le_dec p q : Decision (le p q).
Proof. unfold le. apply _. Defined.

End Pathlib.

(** ** Matching one path component against a glob pattern

    The loader is stated for any matcher; this one, for patterns made of
    literal characters, [*] and [?], serves the worked examples. *)

Module Fnmatch.

Fixpoint fnmatch_chars (pat : string) (n : string) {struct pat} : bool :=
  match pat with
  | EmptyString => match n with EmptyString => true | _ => false end
  | String "*" pat' =>
      (fix star (n : string) : bool :=
         fnmatch_chars pat' n
         || match n with EmptyString => false | String _ n' => star n' end) n
  | String "?" pat' =>
      match n with EmptyString => false | String _ n' => fnmatch_chars pat' n' end
  | String c pat' =>
      match n with
      | EmptyString => false
      | String d n' => Ascii.eqb c d && fnmatch_chars pat' n'
      end
  end.

(** [fnmatch(name, pattern)] *)
Definition fnmatch (n pat : string) : bool := fnmatch_chars pat n.

End Fnmatch.

(** ** The nbformat document model *)

Module Nbformat.

(** A cell: a [NotebookNode] with the keys the source reads, and the
    remaining keys (outputs, execution count, ...) kept as they are. *)
Record Cell := mkCell {
  cell_type : string;
  source : string;
  metadata : gmap string string;
  other_keys : gmap string string
}.

(** A notebook read with [as_version=4]. *)
Record Notebook := mkNotebook {
  cells : list Cell;
  nb_metadata : gmap string string
}.

(** [nbformat.v4.new_notebook()] *)
Definition new_notebook : Notebook :=
  {| cells := []; nb_metadata := ∅ |}.

(** [nbformat.v4.new_markdown_cell(source)] *)
Definition new_markdown_cell (src : string) : Cell :=
  {| cell_type := "markdown"; source := src; metadata := ∅; other_keys := ∅ |}.

Definition set_metadata (c : Cell) (m : gmap string string) : Cell :=
  {| cell_type := cell_type c; source := source c;
     metadata := m; other_keys := other_keys c |}.

Definition extend (nb : Notebook) (cs : list Cell) : Notebook :=
  {| cells := cells nb ++ cs; nb_metadata := nb_metadata nb |}.

Definition set_nb_metadata (nb : Notebook) (m : gmap string string) : Notebook :=
  {| cells := cells nb; nb_metadata := m |}.

End Nbformat.

(** ** Exceptions *)

Module Exn.

Inductive exn :=
| NoHeader (message : option string)
| IndexError
| ReadError.

Inductive result (A : Type) :=
| Ok (a : A)
| Raise (e : exn).

Arguments Ok {A} a.
Arguments Raise {A} e.

#[export] Instance result_bind : MBind result :=
  λ A B k r, match r with Ok a => k a | Raise e => Raise e end.

(** [l[i]] on a list *)
Definition getitem {A} (l : list A) (i : nat) : result A :=
  match l !! i with
  | Some x => Ok x
  | None => Raise IndexError
  end.

End Exn.

(** ** src/bookbook/latex.py *)

Module Latex.
Import Py Pathlib Nbformat Exn.

(** [new_latex_cell(source)] *)
Definition new_latex_cell (src : string) : Cell :=
  {| cell_type := "raw"; source := src;
     metadata := {[ "raw_mimetype" := "text/latex" ]}; other_keys := ∅ |}.

(** [add_sec_label(cell, nbname)].  [lines[0]] and [lines[1]] are list
    accesses that raise [IndexError] out of range; the [and] of the second
    test evaluates [lines[1]] only when [len(lines) > 1]. *)
Definition add_sec_label (cell : Cell) (nbname : string) : result (list Cell) :=
  let lines := splitlines (source cell) in
  line0 ← getitem lines 0;
  header_lines ←
    (if startswith line0 "# " then Ok 1
     else if (1 <? length lines)%nat then
       line1 ← getitem lines 1;
       if startswith line1 "===" then Ok 2 else Raise (NoHeader None)
     else Raise (NoHeader None));
  let header := join NL (take header_lines lines) in
  let intro_remainder := strip (join NL (drop header_lines lines)) in
  let res :=
    [ set_metadata (new_markdown_cell header) (metadata cell);
      new_latex_cell ("\label{sec:" +:+ nbname +:+ "}") ] in
  if truthy intro_remainder
  then Ok (res ++ [new_markdown_cell intro_remainder])
  else Ok res.

(** [try: ... except NoHeader: raise NoHeader(msg)] *)
Definition except_NoHeader {A} (r : result A) (msg : string) : result A :=
  match r with
  | Raise (NoHeader _) => Raise (NoHeader (Some msg))
  | _ => r
  end.

Section World.

(** The notebooks [nbformat.read] can load, by path string; for any other
    path the read raises. *)
Variable fs : gmap string Notebook.

(** How one path component is matched against a glob pattern. *)
Variable fnmatch : string → string → bool.

Definition nbformat_read (path : string) : result Notebook :=
  match fs !! path with
  | Some nb => Ok nb
  | None => Raise ReadError
  end.

(** One turn of the [for] loop of [combine_notebooks]. *)
Definition combine_step (combined_nb : Notebook) (filename : Path)
  : result Notebook :=
  let nbname := stem filename in
  nb ← nbformat_read (str filename);
  labelled ←
    except_NoHeader
      (first ← getitem (cells nb) 0; add_sec_label first nbname)
      ("Failed to find header in " +:+ str filename);
  let combined_nb := extend combined_nb labelled in
  let combined_nb := extend combined_nb (drop 1 (cells nb)) in
  if bool_decide (nb_metadata combined_nb = ∅)
  then Ok (set_nb_metadata combined_nb (nb_metadata nb))
  else Ok combined_nb.

Fixpoint combine_loop (combined_nb : Notebook) (notebook_files : list Path)
  : result Notebook :=
  match notebook_files with
  | [] => Ok combined_nb
  | filename :: rest =>
      combined_nb ← combine_step combined_nb filename;
      combine_loop combined_nb rest
  end.

(** [combine_notebooks(notebook_files)] *)
Definition combine_notebooks (notebook_files : list Path) : result Notebook :=
  combine_loop new_notebook notebook_files.

(** The configuration [export] builds for [TagRemovePreprocessor]; the
    three traits are sets, so the tuples given are read as sets. *)
Record TagRemoveConfig := mkTagRemoveConfig {
  remove_cell_tags : gset string;
  remove_all_outputs_tags : gset string;
  remove_input_tags : gset string
}.

(** What [export] hands to the external exporter and writer. *)
Record ExportJob := mkExportJob {
  job_notebook : Notebook;
  job_pdf : bool;
  job_template_file : option string;
  job_tag_remove : TagRemoveConfig;
  job_build_directory : Path;
  job_notebook_name : string
}.

(** [export(combined_nb, output_file, pdf, template_file, remove_cell_tags,
    remove_all_outputs_tags, remove_input_tags)]; a keyword argument left
    out by the caller is [None] here and takes the default of the [def]. *)
Definition export (combined_nb : Notebook) (output_file : Path)
    (pdf : bool) (template_file : option Path)
    (remove_cell_tags_arg remove_all_outputs_tags_arg
       remove_input_tags_arg : option (list string)) : ExportJob :=
  let remove_cell_tags := default ["hidden"; "remove_cell"] remove_cell_tags_arg in
  let remove_all_outputs_tags :=
    default ["hidden"; "remove_output"] remove_all_outputs_tags_arg in
  let remove_input_tags := default ["hidden"; "remove_input"] remove_input_tags_arg in
  let c := {| remove_cell_tags := list_to_set remove_cell_tags;
              remove_all_outputs_tags := list_to_set remove_all_outputs_tags;
              remove_input_tags := list_to_set remove_input_tags |} in
  {| job_notebook := combined_nb;
     job_pdf := pdf;
     job_template_file := str <$> template_file;
     job_tag_remove := c;
     job_build_directory := removelast output_file;
     job_notebook_name := stem output_file |}.

(** [source_dir.glob(files_pattern)] for a pattern of one component: the
    entries of [source_dir], in the order the directory scan yields them,
    whose name matches. *)
Definition glob (entries : list string) (source_dir : Path)
    (files_pattern : string) : list Path :=
  joinpath source_dir <$> filter (λ n, fnmatch n files_pattern = true) entries.

(** [sorted(paths)]: a stable merge that takes the left element unless the
    right one is smaller. *)
Definition sorted (paths : list Path) : list Path :=
  merge_sort Pathlib.le paths.

(** [combine_and_convert(source_dir, output_file, pdf, template_file,
    files_pattern)], run on a directory whose scan yields [entries]; the
    pattern defaults to "*-*.ipynb". *)
Definition combine_and_convert (entries : list string) (source_dir : Path)
    (output_file : Path) (pdf : bool) (template_file : option Path)
    (files_pattern_arg : option string) : result ExportJob :=
  let files_pattern := default "*-*.ipynb" files_pattern_arg in
  let notebook_files := sorted (glob entries source_dir files_pattern) in
  combined_nb ← combine_notebooks notebook_files;
  Ok (export combined_nb output_file pdf template_file None None None).

End World.

End Latex.

(** ** The spec's reading of the heading rule and of a chapter's units

    These definitions follow the words of the specification, not the code;
    the theorems below compare the code with them. *)

Module Spec.
Import Py Pathlib Nbformat Exn.

(** A text is blank when it holds white space only. *)
Fixpoint blank (s : string) : bool :=
  match s with
  | EmptyString => true
  | String c s' => isspace c && blank s'
  end.

(** A text holds no line boundary. *)
Fixpoint oneline (s : string) : bool :=
  match s with
  | EmptyString => true
  | String c s' => negb (is_linebreak c) && oneline s'
  end.

(** Heading detection on the lines of a first unit: line 1 starting with
    "# " gives a one-line heading; else a line 2 starting with "===" gives
    a two-line heading; else there is none. *)
Definition heading_lines (lines : list string) : option nat :=
  match lines with
  | l1 :: rest =>
      if startswith l1 "# " then Some 1
      else match rest with
           | l2 :: _ => if startswith l2 "===" then Some 2 else None
           | [] => None
           end
  | [] => None
  end.

(** Non-blank text remains after the first [h] lines. *)
Definition text_after (h : nat) (lines : list string) : bool :=
  negb (forallb blank (drop h lines)).

(** The heading unit: the heading lines, with the first unit's metadata. *)
Definition heading_unit (first : Cell) (h : nat) : Cell :=
  {| cell_type := "markdown";
     source := join NL (take h (splitlines (source first)));
     metadata := metadata first;
     other_keys := ∅ |}.

(** The label unit of a chapter: the LaTeX anchor named [sec:<stem>]. *)
Definition label_unit (chapter_stem : string) : Cell :=
  {| cell_type := "raw";
     source := "\label{" +:+ ("sec:" +:+ chapter_stem) +:+ "}";
     metadata := {[ "raw_mimetype" := "text/latex" ]};
     other_keys := ∅ |}.

(** The intro-remainder unit: what follows the heading, stripped, with
    default metadata. *)
Definition remainder_unit (first : Cell) (h : nat) : Cell :=
  {| cell_type := "markdown";
     source := strip (join NL (drop h (splitlines (source first))));
     metadata := ∅;
     other_keys := ∅ |}.

(** The units a chapter contributes to the combined document. *)
Definition chapter_units (chapter_stem : string) (first : Cell) (h : nat)
    (rest : list Cell) : list Cell :=
  heading_unit first h :: label_unit chapter_stem
    :: (if text_after h (splitlines (source first))
        then [remainder_unit first h] else [])
    ++ rest.

(** The first non-empty metadata of a sequence of chapters, or empty. *)
Fixpoint first_nonempty (ms : list (gmap string string)) : gmap string string :=
  match ms with
  | [] => ∅
  | m :: ms' => if bool_decide (m = ∅) then first_nonempty ms' else m
  end.

(** [sub in s] *)
Definition contains (s sub : string) : bool :=
  match String.index 0 sub s with Some _ => true | None => false end.

(** Chapter [f] is the notebook [nb] of the store. *)
Definition loaded (fs : gmap string Notebook) (f : Path) (nb : Notebook) : Prop :=
  fs !! str f = Some nb.

(** The first unit of chapter [f] is extracted successfully. *)
Definition extracted (fs : gmap string Notebook) (f : Path) : Prop :=
  ∃ nb first rest units,
    loaded fs f nb ∧ cells nb = first :: rest ∧
    Latex.add_sec_label first (stem f) = Ok units.

(** [chunk] is what chapter [f] contributes: heading unit, label unit,
    intro-remainder unit when there is one, then the units 2..N. *)
Definition chapter_chunk (fs : gmap string Notebook) (f : Path)
    (chunk : list Cell) : Prop :=
  ∃ nb first rest h,
    loaded fs f nb ∧ cells nb = first :: rest ∧
    heading_lines (splitlines (source first)) = Some h ∧
    chunk = chapter_units (stem f) first h rest.

(** The first unit of chapter [f] shows neither heading form. *)
Definition lacks_heading (fs : gmap string Notebook) (f : Path) : Prop :=
  ∃ nb first rest,
    loaded fs f nb ∧ cells nb = first :: rest ∧
    heading_lines (splitlines (source first)) = None.

End Spec.

(** ** A small book, for the worked examples *)

Module Examples.
Import Py Pathlib Nbformat.

Definition book_dir : Path := ["book"].
Definition ch_intro : Path := ["book"; "01-intro.ipynb"].
Definition ch_details : Path := ["book"; "02-details.ipynb"].

Definition code_cell (src : string) : Cell :=
  {| cell_type := "code"; source := src; metadata := ∅;
     other_keys := {[ "outputs" := "[]" ]} |}.

Definition intro_text : string :=
  "# Introduction" +:+ NL +:+ NL +:+ "See the details.".

Definition details_text : string := "Details" +:+ NL +:+ "=======".

(** The first chapter carries no metadata, the second does. *)
Definition nb_intro : Notebook :=
  {| cells := [new_markdown_cell intro_text; code_cell "print(1)"];
     nb_metadata := ∅ |}.

Definition nb_details : Notebook :=
  {| cells := [new_markdown_cell details_text; code_cell "print(2)"];
     nb_metadata := {[ "kernelspec" := "python3" ]} |}.

Definition book : gmap string Notebook :=
  {[ "book/01-intro.ipynb" := nb_intro;
     "book/02-details.ipynb" := nb_details ]}.

(** The directory scan of [book_dir], in an order that is not sorted. *)
Definition book_entries : list string :=
  ["02-details.ipynb"; "README.md"; "01-intro.ipynb"].

(** Two chapters whose first units show no heading. *)
Definition nb_plain (text : string) : Notebook :=
  {| cells := [new_markdown_cell text]; nb_metadata := ∅ |}.

Definition drafts : gmap string Notebook :=
  {[ "book/01-intro.ipynb" := nb_plain "no heading here";
     "book/02-details.ipynb" := nb_plain "nor here" ]}.

(** A good first chapter followed by one without a heading. *)
Definition half_done : gmap string Notebook :=
  {[ "book/01-intro.ipynb" := nb_intro;
     "book/02-details.ipynb" := nb_plain "nor here" ]}.

End Examples.

(** ** Further notions used to state what the code does *)

Module Notions.
Import Py Pathlib Nbformat Exn.

(** Document [d1] followed by document [d2]: the units of both in that
    order; the metadata of [d1] unless it is empty, then that of [d2]. *)
Definition append_doc (d1 d2 : Notebook) : Notebook :=
  {| cells := cells d1 ++ cells d2;
     nb_metadata :=
       if bool_decide (nb_metadata d1 = ∅) then nb_metadata d2
       else nb_metadata d1 |}.

(** The text [s] with every "\n" turned into "\r\n". *)
Fixpoint crlf (s : string) : string :=
  match s with
  | EmptyString => ""
  | String c s' =>
      if Ascii.eqb c LF then String CR (String LF (crlf s'))
      else String c (crlf s')
  end.

(** The text [s] holds no "\r". *)
Fixpoint no_CR (s : string) : bool :=
  match s with
  | EmptyString => true
  | String c s' => negb (Ascii.eqb c CR) && no_CR s'
  end.

(** The cell [c] with another source text. *)
Definition with_source (c : Cell) (src : string) : Cell :=
  {| cell_type := cell_type c; source := src;
     metadata := metadata c; other_keys := other_keys c |}.

(** The label cell the extractor builds for chapter [nbname]. *)
Definition sec_label (nbname : string) : Cell :=
  Latex.new_latex_cell ("\label{sec:" +:+ nbname +:+ "}").

(** Why chapter [X] makes the combiner raise [e]: the notebook cannot be
    read; or it has no cell, or its first cell has an empty source; or its
    first cell has text but no heading, and then [e] names the file. *)
Definition chapter_failure (fs : gmap string Notebook) (X : Path) (e : exn)
  : Prop :=
  (e = ReadError ∧ fs !! str X = None)
  ∨ (e = IndexError ∧
     ∃ nb, fs !! str X = Some nb ∧
       (cells nb = [] ∨ ∃ first rest, cells nb = first :: rest ∧ source first = ""))
  ∨ (e = NoHeader (Some ("Failed to find header in " +:+ str X)) ∧
     ∃ nb first rest,
       fs !! str X = Some nb ∧ cells nb = first :: rest ∧
       source first ≠ "" ∧
       Spec.heading_lines (splitlines (source first)) = None).

End Notions.

(** ** [add_preamble]: a template that carries an extra preamble *)

Module Preamble.
Import Py Pathlib Exn.







End Preamble.

(** ** More examples *)

Module MoreExamples.
Import Py Pathlib Nbformat Preamble.

(** A first unit with the heading of [intro_text] and another body. *)
Definition intro_variant : string :=
  "# Introduction" +:+ NL +:+ NL +:+ "Another body." +:+ NL +:+ "# Late heading".





End MoreExamples.

(** Chapters of a concrete store are shown extracted by running the
    extractor on them. *)
Ltac extracted_by_evaluation :=
  repeat constructor;
  eexists _, _, _, _; split_and!; reflexivity.

(** * Properties *)

(** ** Strings *)

Section StringFacts.
Import Py Spec.

Lemma splitlines_nil_iff (s : string) : splitlines s = [] ↔ s = "".
Proof.
  destruct s as [|c s]; simpl; [done|].
  split; [|done].
  destruct (is_linebreak c).
  - destruct s as [|c' s']; [done|]. by destruct (_ && _).
  - by destruct (splitlines s).
Qed.

Lemma string_length_ind (P : string → Prop) :
  (∀ s, (∀ t, String.length t < String.length s → P t) → P s) → ∀ s, P s.
Proof.
  intros step s.
  remember (String.length s) as n eqn:Hn.
  revert s Hn. induction (lt_wf n) as [n _ IH].
  intros s ->. apply step. intros t Ht. by eapply IH.
Qed.

Lemma splitlines_oneline (s : string) :
  Forall (λ l, oneline l = true) (splitlines s).
Proof.
  induction s as [s IH] using string_length_ind.
  destruct s as [|c s']; simpl; [constructor|].
  destruct (is_linebreak c) eqn:Hc.
  - destruct s' as [|c' s'']; [by repeat constructor|].
    destruct (_ && _); constructor; try done; apply IH; simpl; lia.
  - pose proof (IH s' ltac:(simpl; lia)) as Hs'.
    destruct (splitlines s') as [|l ls].
    + repeat constructor. simpl. by rewrite Hc.
    + inversion_clear Hs' as [|?? Hl Hls].
      constructor; [|done]. simpl. by rewrite Hc, Hl.
Qed.

Lemma splitlines_single (l : string) :
  oneline l = true → l ≠ "" → splitlines l = [l].
Proof.
  induction l as [|c l IH]; [done|]. simpl.
  intros [Hc Hl]%andb_prop _.
  apply negb_true_iff in Hc. rewrite Hc.
  destruct l as [|c' l']; [done|].
  by rewrite IH.
Qed.

Lemma splitlines_line_NL (l s : string) :
  oneline l = true → splitlines (l +:+ NL +:+ s) = l :: splitlines s.
Proof.
  induction l as [|c l IH]; simpl.
  - intros _. destruct s as [|c' s']; [done|]. done.
  - intros [Hc Hl]%andb_prop.
    apply negb_true_iff in Hc. rewrite Hc.
    by rewrite (IH Hl).
Qed.

Lemma join_cons_cons (sep l l' : string) (ls : list string) :
  join sep (l :: l' :: ls) = l +:+ sep +:+ join sep (l' :: ls).
Proof. reflexivity. Qed.

Lemma splitlines_join (ls : list string) :
  Forall (λ l, oneline l = true) ls → ls ≠ [] → List.last ls "x" ≠ "" →
  splitlines (join NL ls) = ls.
Proof.
  induction ls as [|l ls IH]; [done|].
  intros Hall _ Hlast. inversion_clear Hall as [|?? Hl Hls].
  destruct ls as [|l' ls'].
  - simpl in *. by apply splitlines_single.
  - rewrite join_cons_cons, splitlines_line_NL by done.
    f_equal. apply IH; done.
Qed.

Lemma blank_app (a b : string) : blank (a +:+ b) = blank a && blank b.
Proof.
  induction a as [|c a IH]; simpl; [done|].
  by rewrite IH, andb_assoc.
Qed.

Lemma blank_join (ls : list string) : blank (join NL ls) = forallb blank ls.
Proof.
  induction ls as [|l ls IH]; [done|].
  destruct ls as [|l' ls'].
  - simpl. by rewrite andb_true_r.
  - rewrite join_cons_cons, !blank_app, IH. by simpl.
Qed.

Lemma blank_false_iff (s : string) :
  blank s = false ↔
  ∃ c, c ∈ String.list_ascii_of_string s ∧ isspace c = false.
Proof.
  induction s as [|a s IH]; simpl.
  - split; [done|]. by intros (c & Hc%elem_of_nil & _).
  - rewrite andb_false_iff, IH. split.
    + intros [Ha|(c & Hc & Hsp)].
      * exists a. split; [apply list_elem_of_here|done].
      * exists c. split; [by apply list_elem_of_further|done].
    + intros (c & [->|Hc]%elem_of_cons & Hsp); eauto.
Qed.

Lemma lstrip_blank (s : string) : blank s = true → lstrip s = "".
Proof.
  induction s as [|c s IH]; simpl; [done|].
  intros [-> Hs]%andb_prop. auto.
Qed.

Lemma lstrip_nonblank (s : string) :
  blank s = false → ∃ c t, lstrip s = String c t ∧ isspace c = false.
Proof.
  induction s as [|c s IH]; simpl; [done|].
  destruct (isspace c) eqn:Hc; simpl; eauto.
Qed.

Lemma rstrip_head (c : ascii) (t : string) :
  isspace c = false → rstrip (String c t) ≠ "".
Proof. intros Hc. simpl. rewrite Hc. by destruct (rstrip t). Qed.

Lemma strip_empty_iff (s : string) : strip s = "" ↔ blank s = true.
Proof.
  unfold strip. split.
  - intros Hs. destruct (blank s) eqn:Hb; [done|].
    destruct (lstrip_nonblank s Hb) as (c & t & Heq & Hc).
    rewrite Heq in Hs. by apply rstrip_head in Hs.
  - intros Hb. by rewrite lstrip_blank.
Qed.

Lemma truthy_strip (s : string) : truthy (strip s) = negb (blank s).
Proof.
  destruct (blank s) eqn:Hb; simpl.
  - apply strip_empty_iff in Hb. by rewrite Hb.
  - destruct (strip s) eqn:Hs; [|done].
    apply strip_empty_iff in Hs. congruence.
Qed.

Lemma startswith_nonempty (l p : string) :
  p ≠ "" → startswith l p = true → l ≠ "".
Proof. intros Hp Hl ->. destruct p; [done|]. by simpl in Hl. Qed.

End StringFacts.

(** ** The heading extractor *)

Section Extractor.
Import Py Pathlib Nbformat Exn Latex Spec.

Lemma heading_lines_bound (lines : list string) (h : nat) :
  heading_lines lines = Some h →
  (h = 1 ∨ h = 2) ∧ h ≤ length lines ∧
  ∃ l, List.last (take h lines) "x" = l ∧ l ≠ "".
Proof.
  destruct lines as [|l1 rest]; [done|]. simpl.
  destruct (startswith l1 "# ") eqn:H1.
  - intros [= <-]. split_and!; [auto|simpl; lia|].
    eexists; split; [reflexivity|].
    by apply (startswith_nonempty _ "# ").
  - destruct rest as [|l2 rest]; [done|].
    destruct (startswith l2 "===") eqn:H2; [|done].
    intros [= <-]. split_and!; [auto|simpl; lia|].
    eexists; split; [reflexivity|].
    by apply (startswith_nonempty _ "===").
Qed.

Lemma text_after_iff (h : nat) (lines : list string) :
  text_after h lines = true ↔ ∃ l, l ∈ drop h lines ∧ blank l = false.
Proof.
  unfold text_after. rewrite negb_true_iff.
  induction (drop h lines) as [|l ls IH]; simpl.
  - split; [done|]. by intros (l & Hl%elem_of_nil & _).
  - rewrite andb_false_iff, IH. split.
    + intros [Hl|(l' & Hl' & Hb)].
      * exists l. split; [apply list_elem_of_here|done].
      * exists l'. split; [by apply list_elem_of_further|done].
    + intros (l' & [->|Hl']%elem_of_cons & Hb); eauto.
Qed.

(** The code against the spec's reading: on a source with at least one
    line the extractor follows the heading rule; on an empty source the
    first line access is out of range. *)
Lemma add_sec_label_cases (cell : Cell) (nbname : string) :
  add_sec_label cell nbname =
    match splitlines (source cell) with
    | [] => Raise IndexError
    | lines =>
        match heading_lines lines with
        | Some h => Ok (chapter_units nbname cell h [])
        | None => Raise (NoHeader None)
        end
    end.
Proof.
  unfold add_sec_label, chapter_units, heading_unit, remainder_unit,
    label_unit, text_after.
  destruct (splitlines (source cell)) as [|l1 rest] eqn:Hlines; [reflexivity|].
  unfold getitem. cbn [lookup list_lookup mbind result_bind heading_lines].
  destruct (startswith l1 "# ") eqn:H1.
  - cbn [mbind result_bind]. rewrite truthy_strip, blank_join.
    by destruct (forallb blank _).
  - destruct rest as [|l2 rest]; [reflexivity|].
    cbn [length Nat.ltb Nat.leb lookup list_lookup mbind result_bind].
    destruct (startswith l2 "===") eqn:H2; [|reflexivity].
    cbn [mbind result_bind]. rewrite truthy_strip, blank_join.
    by destruct (forallb blank _).
Qed.

Lemma add_sec_label_Ok_iff (cell : Cell) (nbname : string) (res : list Cell) :
  add_sec_label cell nbname = Ok res ↔
  ∃ h, heading_lines (splitlines (source cell)) = Some h ∧
       res = chapter_units nbname cell h [].
Proof.
  rewrite add_sec_label_cases.
  destruct (splitlines (source cell)) as [|l1 rest].
  { split; [done|]. by intros (h & Hh & _). }
  destruct (heading_lines (l1 :: rest)) as [h|].
  - split; [intros [= <-]; eauto|]. by intros (h' & [= <-] & ->).
  - split; [done|]. by intros (h' & Hh & _).
Qed.

(** C4 (the code departs from the claim).  The claim sends every first
    unit that shows neither heading form to the NoHeader condition.  On the
    empty source the heading rule finds no heading, yet the extractor stops
    earlier, at the unguarded access to line 1, with an IndexError. *)
Theorem empty_first_unit_raises_IndexError :
  heading_lines (splitlines "") = None ∧
  add_sec_label (new_markdown_cell "") "01-intro" = Raise IndexError.
Proof. split; reflexivity. Qed.

(** Where the source has at least one line the extractor tries the two
    heading forms in order: a first line starting with "# " gives the
    one-line heading whatever the second line is; else a second line
    starting with "===" gives the two-line heading; else NoHeader. *)
Lemma add_sec_label_heading_rule (cell : Cell) (nbname : string)
    (l1 : string) (rest : list string) :
  splitlines (source cell) = l1 :: rest →
  (startswith l1 "# " = true →
     ∃ res, add_sec_label cell nbname = Ok res ∧
            res !! 0 = Some (heading_unit cell 1)) ∧
  (startswith l1 "# " = false →
     (∃ l2, rest !! 0 = Some l2 ∧ startswith l2 "===" = true) →
     ∃ res, add_sec_label cell nbname = Ok res ∧
            res !! 0 = Some (heading_unit cell 2)) ∧
  (startswith l1 "# " = false →
     (∀ l2, rest !! 0 = Some l2 → startswith l2 "===" = false) →
     add_sec_label cell nbname = Raise (NoHeader None)).
Proof.
  intros Hlines. rewrite add_sec_label_cases, Hlines.
  cbn [heading_lines]. split_and!.
  - intros ->. eauto.
  - intros -> (l2 & Hl2 & H2). destruct rest as [|? rest]; [done|].
    simpl in Hl2. injection Hl2 as ->. rewrite H2. eauto.
  - intros -> Hno. destruct rest as [|l2 rest]; [done|].
    by rewrite (Hno l2).
Qed.

(** C5.  On successful extraction the result is the heading unit, the
    label unit and at most one more unit.  The heading unit is a markdown
    unit whose lines are exactly the heading lines and whose metadata is
    the first unit's.  A remainder unit follows the label if and only if
    non-blank text remains after the heading lines; it holds that text,
    stripped, and its metadata is empty. *)
Theorem add_sec_label_units (cell : Cell) (nbname : string) (res : list Cell) :
  add_sec_label cell nbname = Ok res →
  ∃ h heading label tail,
    heading_lines (splitlines (source cell)) = Some h ∧
    res = heading :: label :: tail ∧
    cell_type heading = "markdown" ∧
    splitlines (source heading) = take h (splitlines (source cell)) ∧
    metadata heading = metadata cell ∧
    ((text_after h (splitlines (source cell)) = true ∧
      ∃ r, tail = [r] ∧ cell_type r = "markdown" ∧ metadata r = ∅ ∧
           source r = strip (join NL (drop h (splitlines (source cell)))) ∧
           source r ≠ "")
     ∨ (text_after h (splitlines (source cell)) = false ∧ tail = [])).
Proof.
  intros (h & Hh & ->)%add_sec_label_Ok_iff.
  destruct (heading_lines_bound _ _ Hh) as (Hh12 & Hlen & l & Hlast & Hl).
  unfold chapter_units. rewrite app_nil_r.
  eexists h, _, _, _. split_and!; [done|reflexivity|done| |done|].
  - cbn [heading_unit source]. apply splitlines_join.
    + apply Forall_take, splitlines_oneline.
    + intros Htake. apply (f_equal length) in Htake.
      rewrite length_take in Htake. simpl in Htake. lia.
    + by rewrite Hlast.
  - destruct (text_after h (splitlines (source cell))) eqn:Hafter; [left|by right].
    split; [done|]. eexists. split_and!; [reflexivity|done|done|done|].
    cbn [remainder_unit source]. rewrite strip_empty_iff, blank_join.
    unfold text_after in Hafter. by destruct (forallb blank _).
Qed.

(** C10.  A first unit whose source is empty splits into zero lines; on it
    the extractor does not raise NoHeader: the access to line 1 raises
    IndexError. *)
Theorem add_sec_label_empty_source (cell : Cell) (nbname : string) :
  source cell = "" →
  splitlines (source cell) = [] ∧
  add_sec_label cell nbname = Raise IndexError ∧
  ∀ message, add_sec_label cell nbname ≠ Raise (NoHeader message).
Proof.
  intros Hsrc. apply splitlines_nil_iff in Hsrc.
  rewrite add_sec_label_cases, Hsrc. by split_and!.
Qed.

End Extractor.

(** ** The combiner *)

Section Combiner.
Import Py Pathlib Nbformat Exn Latex Spec.

Variable fs : gmap string Notebook.

Lemma first_nonempty_singleton (m : gmap string string) : first_nonempty [m] = m.
Proof. simpl. by case_bool_decide. Qed.

Lemma first_nonempty_nest (a b : gmap string string) (ms : list (gmap string string)) :
  first_nonempty (first_nonempty [a; b] :: ms) = first_nonempty (a :: b :: ms).
Proof. simpl. repeat case_bool_decide; congruence. Qed.

Lemma chapter_units_app (nbname : string) (first : Cell) (h : nat) (rest : list Cell) :
  chapter_units nbname first h [] ++ rest = chapter_units nbname first h rest.
Proof. unfold chapter_units. by rewrite app_nil_r. Qed.

Lemma combine_step_chunk (acc : Notebook) (f : Path) (chunk : list Cell)
    (nb : Notebook) :
  chapter_chunk fs f chunk → loaded fs f nb →
  combine_step fs acc f =
    Ok {| cells := cells acc ++ chunk;
          nb_metadata := first_nonempty [nb_metadata acc; nb_metadata nb] |}.
Proof.
  intros (nb' & first & rest & h & Hnb' & Hcells & Hh & ->) Hnb.
  unfold loaded in *. assert (nb' = nb) as -> by congruence.
  unfold combine_step, nbformat_read, getitem. rewrite Hnb.
  cbn [mbind result_bind]. rewrite Hcells.
  cbn [mbind result_bind lookup list_lookup].
  rewrite (proj2 (add_sec_label_Ok_iff first (stem f) _)) by eauto.
  cbn [except_NoHeader mbind result_bind].
  unfold extend, set_nb_metadata. cbn [cells nb_metadata drop first_nonempty].
  rewrite <- app_assoc, chapter_units_app.
  repeat case_bool_decide; try done; by repeat f_equal.
Qed.

Lemma combine_loop_chunks (files : list Path) :
  ∀ (acc : Notebook) (chunks : list (list Cell)) (nbs : list Notebook),
    Forall2 (chapter_chunk fs) files chunks →
    Forall2 (loaded fs) files nbs →
    combine_loop fs acc files =
      Ok {| cells := cells acc ++ concat chunks;
            nb_metadata := first_nonempty (nb_metadata acc :: (nb_metadata <$> nbs)) |}.
Proof.
  induction files as [|f files IH]; intros acc chunks nbs Hchunks Hnbs.
  - inversion Hchunks; inversion Hnbs; subst.
    cbn [combine_loop concat fmap list_fmap].
    rewrite app_nil_r, first_nonempty_singleton. by destruct acc.
  - inversion Hchunks as [|? chunk ? chunks' Hchunk Hchunks']; subst.
    inversion Hnbs as [|? nb ? nbs' Hnb Hnbs']; subst.
    cbn [combine_loop]. rewrite (combine_step_chunk _ _ _ _ Hchunk Hnb).
    cbn [mbind result_bind]. rewrite (IH _ _ _ Hchunks' Hnbs').
    cbn [cells nb_metadata concat fmap list_fmap].
    by rewrite <- app_assoc, first_nonempty_nest.
Qed.

Lemma extracted_chunk (f : Path) :
  extracted fs f → ∃ chunk nb, chapter_chunk fs f chunk ∧ loaded fs f nb.
Proof.
  intros (nb & first & rest & units & Hnb & Hcells & Hunits).
  apply add_sec_label_Ok_iff in Hunits as (h & Hh & _).
  exists (chapter_units (stem f) first h rest), nb.
  split; [|done]. by exists nb, first, rest, h.
Qed.

Lemma extracted_chunks (files : list Path) :
  Forall (extracted fs) files →
  ∃ chunks nbs,
    Forall2 (chapter_chunk fs) files chunks ∧ Forall2 (loaded fs) files nbs.
Proof.
  induction 1 as [|f files Hf _ (chunks & nbs & Hchunks & Hnbs)].
  - exists [], []. split; constructor.
  - destruct (extracted_chunk f Hf) as (chunk & nb & Hchunk & Hnb).
    exists (chunk :: chunks), (nb :: nbs). split; by constructor.
Qed.

Lemma combine_step_Ok_extracted (acc acc' : Notebook) (f : Path) :
  combine_step fs acc f = Ok acc' → extracted fs f.
Proof.
  unfold combine_step, nbformat_read, getitem.
  destruct (fs !! str f) as [nb|] eqn:Hnb; [|done].
  cbn [mbind result_bind].
  destruct (cells nb) as [|first rest] eqn:Hcells; [done|].
  cbn [lookup list_lookup mbind result_bind].
  destruct (add_sec_label first (stem f)) as [units|e] eqn:Hunits.
  - intros _. by exists nb, first, rest, units.
  - by destruct e.
Qed.

(** Combining succeeds exactly when every chapter is extracted. *)
Lemma combine_loop_Ok_extracted (files : list Path) :
  ∀ acc doc, combine_loop fs acc files = Ok doc → Forall (extracted fs) files.
Proof.
  induction files as [|f files IH]; intros acc doc; [constructor|].
  cbn [combine_loop].
  destruct (combine_step fs acc f) as [acc'|e] eqn:Hstep; [|done].
  cbn [mbind result_bind]. intros Hloop. constructor.
  - by eapply combine_step_Ok_extracted.
  - by eapply IH.
Qed.

Lemma combine_notebooks_Ok_iff (files : list Path) :
  (∃ doc, combine_notebooks fs files = Ok doc) ↔ Forall (extracted fs) files.
Proof.
  split.
  - intros [doc Hdoc]. by eapply combine_loop_Ok_extracted.
  - intros (chunks & nbs & Hchunks & Hnbs)%extracted_chunks.
    eexists. by apply combine_loop_chunks.
Qed.

(** C1.  When the first unit of every chapter is extracted successfully,
    combining returns a document whose units are the chapters' chunks one
    after the other in the order of the list; the chunk of a chapter is its
    heading unit, the label unit named [sec:<stem>], the intro-remainder
    unit when non-blank text followed the heading, then the chapter's
    units 2..N as they were. *)
Theorem combine_notebooks_units (files : list Path) :
  Forall (extracted fs) files →
  ∃ doc chunks,
    combine_notebooks fs files = Ok doc ∧
    Forall2 (chapter_chunk fs) files chunks ∧
    cells doc = concat chunks.
Proof.
  intros (chunks & nbs & Hchunks & Hnbs)%extracted_chunks.
  eexists _, chunks. split_and!; [by apply combine_loop_chunks|done|done].
Qed.

Lemma first_nonempty_split (nbs : list Notebook) :
  (Forall (λ nb, nb_metadata nb = ∅) nbs ∧
   first_nonempty (nb_metadata <$> nbs) = ∅)
  ∨ (∃ pre nb post,
       nbs = pre ++ nb :: post ∧
       Forall (λ nb', nb_metadata nb' = ∅) pre ∧
       nb_metadata nb ≠ ∅ ∧
       first_nonempty (nb_metadata <$> nbs) = nb_metadata nb).
Proof.
  induction nbs as [|nb nbs IH]; [left; by split|].
  cbn [fmap list_fmap first_nonempty]. case_bool_decide as Hnb.
  - destruct IH as [[Hall Hnone]|(pre & nb' & post & -> & Hpre & Hnb' & Hfirst)].
    + left. split; [by constructor|done].
    + right. exists (nb :: pre), nb', post. split_and!; [done|by constructor|done|done].
  - right. exists [], nb, nbs. split_and!; [done|constructor|done|done].
Qed.

(** C3.  The combined document's metadata is that of the first chapter,
    in processing order, whose metadata is not empty, whatever the chapters
    after it carry; it is empty when every chapter's metadata is. *)
Theorem combine_notebooks_metadata_first_nonempty (files : list Path) :
  Forall (extracted fs) files →
  ∃ doc nbs,
    combine_notebooks fs files = Ok doc ∧
    Forall2 (loaded fs) files nbs ∧
    ((Forall (λ nb, nb_metadata nb = ∅) nbs ∧ nb_metadata doc = ∅)
     ∨ (∃ pre nb post,
          nbs = pre ++ nb :: post ∧
          Forall (λ nb', nb_metadata nb' = ∅) pre ∧
          nb_metadata nb ≠ ∅ ∧
          nb_metadata doc = nb_metadata nb)).
Proof.
  intros (chunks & nbs & Hchunks & Hnbs)%extracted_chunks.
  eexists _, nbs. split_and!; [by apply combine_loop_chunks|done|].
  cbn [nb_metadata new_notebook first_nonempty].
  rewrite bool_decide_eq_true_2 by done. apply first_nonempty_split.
Qed.

(** C2, as amended.  The combined document's metadata is the first
    chapter's when that is not empty, whatever the later chapters carry;
    when the first chapter's metadata is empty the document takes the
    metadata the remaining chapters yield. *)
Theorem combine_notebooks_metadata_first_chapter (f : Path)
    (rest : list Path) (nb : Notebook) :
  Forall (extracted fs) (f :: rest) → loaded fs f nb →
  ∃ doc,
    combine_notebooks fs (f :: rest) = Ok doc ∧
    (nb_metadata nb ≠ ∅ → nb_metadata doc = nb_metadata nb) ∧
    (nb_metadata nb = ∅ →
       ∃ doc', combine_notebooks fs rest = Ok doc' ∧
               nb_metadata doc = nb_metadata doc').
Proof.
  intros Hall Hnb.
  destruct (extracted_chunks _ Hall) as (chunks & nbs & Hchunks & Hnbs).
  inversion Hchunks as [|? chunk ? chunks' Hchunk Hchunks']; subst.
  inversion Hnbs as [|? nb' ? nbs' Hnb' Hnbs']; subst.
  assert (nb' = nb) as -> by (unfold loaded in *; congruence).
  eexists. split; [by apply combine_loop_chunks|].
  cbn [nb_metadata new_notebook fmap list_fmap first_nonempty].
  rewrite bool_decide_eq_true_2 by done. split.
  - intros Hne. by rewrite bool_decide_eq_false_2.
  - intros Hempty. eexists. split; [by apply combine_loop_chunks|].
    cbn [nb_metadata new_notebook first_nonempty].
    by rewrite !bool_decide_eq_true_2.
Qed.

Lemma prefix_refl (s : string) : String.prefix s s = true.
Proof.
  induction s as [|a s IH]; [done|]. simpl. by destruct (ascii_dec a a).
Qed.

Lemma contains_app_r (p s : string) : contains (p +:+ s) s = true.
Proof.
  unfold contains. induction p as [|c p IH].
  - change ("" +:+ s) with s. destruct s as [|c s]; [done|].
    cbn [String.index]. by rewrite prefix_refl.
  - change (String c p +:+ s) with (String c (p +:+ s)).
    cbn [String.index].
    destruct (String.prefix s (String c (p +:+ s))); [done|].
    destruct (String.index 0 s (p +:+ s)); [done|discriminate IH].
Qed.

(** C6, as amended.  When the chapters before [X] are all extracted, and
    the first unit of [X] has at least one line and shows neither heading
    form, combining returns no document: it raises NoHeader with the
    message "Failed to find header in <X>", which names [X]. *)
Theorem combine_notebooks_NoHeader (pre post : list Path) (X : Path)
    (nb : Notebook) (first : Cell) (rest : list Cell) :
  Forall (extracted fs) pre →
  loaded fs X nb → cells nb = first :: rest →
  splitlines (source first) ≠ [] →
  heading_lines (splitlines (source first)) = None →
  ∃ message,
    combine_notebooks fs (pre ++ X :: post) = Raise (NoHeader (Some message)) ∧
    message = "Failed to find header in " +:+ str X ∧
    contains message (str X) = true.
Proof.
  intros Hpre Hnb Hcells Hlines Hnone.
  eexists. split_and!; [|reflexivity|apply contains_app_r].
  unfold combine_notebooks. generalize new_notebook as acc.
  induction Hpre as [|f pre Hf _ IH]; intros acc.
  - cbn [app combine_loop]. unfold combine_step, nbformat_read, getitem.
    unfold loaded in Hnb. rewrite Hnb.
    cbn [mbind result_bind]. rewrite Hcells.
    cbn [mbind result_bind lookup list_lookup].
    rewrite add_sec_label_cases.
    destruct (splitlines (source first)) as [|l1 ls]; [done|].
    by rewrite Hnone.
  - cbn [app combine_loop].
    destruct (extracted_chunk f Hf) as (chunk & nbf & Hchunk & Hnbf).
    rewrite (combine_step_chunk _ _ _ _ Hchunk Hnbf).
    cbn [mbind result_bind]. apply IH.
Qed.

End Combiner.

(** ** The order of paths *)

Section PathOrder.
Import Pathlib.


Lemma string_compare_lt_trans (a b c : string) :
  String.compare a b = Lt → String.compare b c = Lt → String.compare a c = Lt.
Proof.
  intros Hab Hbc. apply String_as_OT.cmp_lt.
  eapply String_as_OT.lt_trans; by apply String_as_OT.cmp_lt.
Qed.

Lemma compare_eq (p q : Path) : compare p q = Eq → p = q.
Proof.
  revert q. induction p as [|a p IH]; intros [|b q]; simpl; try done.
  destruct (String.compare a b) eqn:Hab; try done.
  apply String_as_OT.cmp_eq in Hab as ->. intros Hpq. f_equal. by apply IH.
Qed.

Lemma compare_antisym (p q : Path) : compare p q = CompOpp (compare q p).
Proof.
  revert q. induction p as [|a p IH]; intros [|b q]; simpl; try done.
  rewrite (String.compare_antisym b a).
  destruct (String.compare a b); simpl; auto.
Qed.

Lemma compare_lt_trans (p q r : Path) :
  compare p q = Lt → compare q r = Lt → compare p r = Lt.
Proof.
  revert q r.
  induction p as [|a p IH]; intros [|b q] [|c r]; simpl; try done.
  destruct (String.compare a b) eqn:Hab; try done;
    destruct (String.compare b c) eqn:Hbc; try done.
  - apply String_as_OT.cmp_eq in Hab as ->. rewrite Hbc. apply IH.
  - apply String_as_OT.cmp_eq in Hab as ->. by rewrite Hbc.
  - apply String_as_OT.cmp_eq in Hbc as ->. by rewrite Hab.
  - by rewrite (string_compare_lt_trans _ _ _ Hab Hbc).
Qed.

#[global] Instance le_total : Total le.
Proof.
  intros p q. unfold le. rewrite (compare_antisym q p).
  destruct (compare p q); simpl; auto.
Qed.

#[global] Instance le_transitive : Transitive le.
Proof.
  intros p q r. unfold le.
  destruct (compare p q) eqn:Hpq; try done.
  - apply compare_eq in Hpq as ->. done.
  - destruct (compare q r) eqn:Hqr; try done.
    + apply compare_eq in Hqr as ->. by rewrite Hpq.
    + by rewrite (compare_lt_trans _ _ _ Hpq Hqr).
Qed.

#[global] Instance le_antisymm : AntiSymm (=) le.
Proof.
  intros p q. unfold le. rewrite (compare_antisym q p).
  destruct (compare p q) eqn:Hpq; simpl; try done.
  intros _ _. by apply compare_eq.
Qed.


Lemma name_joinpath (dir : Path) (n : string) : name (joinpath dir n) = n.
Proof. unfold name, joinpath. apply last_last. Qed.

#[global] Instance joinpath_inj (dir : Path) : Inj (=) (=) (joinpath dir).
Proof. intros a b Hab. unfold joinpath in Hab. by simplify_list_eq. Qed.

End PathOrder.

(** ** The chapter loader and the export defaults *)

Section Loader.
Import Py Pathlib Nbformat Exn Latex Spec.

Variable fs : gmap string Notebook.
Variable fnmatch : string → string → bool.

Lemma elem_of_glob (entries : list string) (source_dir : Path)
    (pattern : string) (p : Path) :
  p ∈ glob fnmatch entries source_dir pattern ↔
  ∃ n, n ∈ entries ∧ fnmatch n pattern = true ∧ p = joinpath source_dir n.
Proof.
  unfold glob. rewrite list_elem_of_fmap. split.
  - intros (n & -> & [Hn Hin]%list_elem_of_filter). eauto.
  - intros (n & Hin & Hn & ->). exists n. split; [done|].
    by apply list_elem_of_filter.
Qed.



Lemma sorted_Permutation (paths : list Path) : sorted paths ≡ₚ paths.
Proof. apply merge_sort_Permutation. Qed.


(** The result of [sorted] depends on the elements only, not on the order
    they arrive in. *)
Lemma sorted_unique (paths paths' : list Path) :
  paths ≡ₚ paths' → sorted paths = sorted paths'.
Proof.
  intros Hperm. apply (Sorted_unique le).
  - apply Sorted_merge_sort; apply _.
  - apply Sorted_merge_sort; apply _.
  - by rewrite !sorted_Permutation.
Qed.



(** C8.  When no entry matches the pattern, combining raises nothing and
    returns the empty document: no units, empty metadata. *)
Theorem combine_and_convert_no_match (entries : list string)
    (source_dir output_file : Path) (pdf : bool) (template_file : option Path)
    (pattern_arg : option string) :
  (∀ n, n ∈ entries → fnmatch n (default "*-*.ipynb" pattern_arg) = false) →
  ∃ doc job,
    combine_notebooks fs
      (sorted (glob fnmatch entries source_dir (default "*-*.ipynb" pattern_arg)))
      = Ok doc ∧
    cells doc = [] ∧ nb_metadata doc = ∅ ∧
    combine_and_convert fs fnmatch entries source_dir output_file pdf
      template_file pattern_arg = Ok job ∧
    job_notebook job = doc.
Proof.
  intros Hnone.
  assert (glob fnmatch entries source_dir (default "*-*.ipynb" pattern_arg) = [])
    as Hglob.
  { apply elem_of_nil_inv. intros p (n & Hin & Hn & _)%elem_of_glob.
    rewrite (Hnone n Hin) in Hn. done. }
  unfold combine_and_convert. rewrite Hglob.
  eexists _, _. split_and!; reflexivity.
Qed.

(** C9.  Called without tag arguments, [export] hands the tag-removal
    preprocessor the three default sets; an argument that is given replaces
    the default of its own set only. *)
Theorem export_default_tags (combined_nb : Notebook) (output_file : Path)
    (pdf : bool) (template_file : option Path) :
  job_tag_remove
    (export combined_nb output_file pdf template_file None None None)
  = {| remove_cell_tags := {[ "hidden"; "remove_cell" ]};
       remove_all_outputs_tags := {[ "hidden"; "remove_output" ]};
       remove_input_tags := {[ "hidden"; "remove_input" ]} |}
  ∧ ∀ a b c : option (list string),
      job_tag_remove (export combined_nb output_file pdf template_file a b c)
      = {| remove_cell_tags :=
             from_option list_to_set {[ "hidden"; "remove_cell" ]} a;
           remove_all_outputs_tags :=
             from_option list_to_set {[ "hidden"; "remove_output" ]} b;
           remove_input_tags :=
             from_option list_to_set {[ "hidden"; "remove_input" ]} c |}.
Proof.
  assert (∀ x y : string, list_to_set [x; y] = ({[ x; y ]} : gset string)) as Hset.
  { intros x y. cbn [list_to_set]. by rewrite (right_id_L ∅ (∪)). }
  split.
  - unfold export. cbn [job_tag_remove default]. by rewrite !Hset.
  - intros [a|] [b|] [c|]; unfold export;
      cbn [job_tag_remove default from_option]; by rewrite ?Hset.
Qed.

End Loader.

(** ** Worked examples: the theorems at the small book *)

Section Worked.
Import Py Pathlib Nbformat Exn Latex Spec Examples.

(** [splitlines] on the cases the Python documentation singles out. *)
Example splitlines_examples :
  splitlines "" = [] ∧
  splitlines NL = [""] ∧
  splitlines ("ab c" +:+ NL) = ["ab c"] ∧
  splitlines ("ab c" +:+ NL +:+ NL +:+ "de fg" +:+ String CR "kl" +:+ String CR NL)
    = ["ab c"; ""; "de fg"; "kl"].
Proof. by split_and!. Qed.

Example strip_example :
  strip (NL +:+ "  two words " +:+ NL) = "two words" ∧ strip (" " +:+ NL) = "".
Proof. by split. Qed.

Example stem_examples :
  stem ch_intro = "01-intro" ∧ stem ["archive.tar.gz"] = "archive.tar" ∧
  stem [".profile"] = ".profile".
Proof. by split_and!. Qed.

Lemma combine_notebooks_units_witness :
  Forall (extracted book) [ch_intro; ch_details] ∧
  ∃ doc chunks,
    combine_notebooks book [ch_intro; ch_details] = Ok doc ∧
    Forall2 (chapter_chunk book) [ch_intro; ch_details] chunks ∧
    cells doc = concat chunks.
Proof.
  assert (Forall (extracted book) [ch_intro; ch_details]) as Hbook
    by extracted_by_evaluation.
  split; [exact Hbook|].
  exact (combine_notebooks_units book [ch_intro; ch_details] Hbook).
Defined.

(** What the combiner returns on the small book, unit by unit. *)
Example combine_notebooks_book :
  combine_notebooks book [ch_intro; ch_details] =
  Ok {| cells :=
          [ new_markdown_cell "# Introduction";
            new_latex_cell "\label{sec:01-intro}";
            new_markdown_cell "See the details.";
            code_cell "print(1)";
            new_markdown_cell details_text;
            new_latex_cell "\label{sec:02-details}";
            code_cell "print(2)" ];
        nb_metadata := {[ "kernelspec" := "python3" ]} |}.
Proof. reflexivity. Qed.

(** C2, refuted as stated: the first chapter processed has empty metadata,
    the second has not, and the combined document carries the second's. *)
Lemma metadata_taken_from_later_chapter :
  ∃ doc,
    combine_notebooks book [ch_intro; ch_details] = Ok doc ∧
    loaded book ch_intro nb_intro ∧
    nb_metadata nb_intro = ∅ ∧
    nb_metadata doc = nb_metadata nb_details ∧
    nb_metadata doc ≠ nb_metadata nb_intro.
Proof.
  eexists. split_and!; [reflexivity..|].
  intros Heq. apply (f_equal (λ m : gmap string string, m !! "kernelspec")) in Heq.
  discriminate Heq.
Qed.

Lemma combine_notebooks_metadata_first_chapter_witness :
  (Forall (extracted book) [ch_intro; ch_details] ∧ loaded book ch_intro nb_intro) ∧
  ∃ doc,
    combine_notebooks book [ch_intro; ch_details] = Ok doc ∧
    (nb_metadata nb_intro ≠ ∅ → nb_metadata doc = nb_metadata nb_intro) ∧
    (nb_metadata nb_intro = ∅ →
       ∃ doc', combine_notebooks book [ch_details] = Ok doc' ∧
               nb_metadata doc = nb_metadata doc').
Proof.
  assert (Forall (extracted book) [ch_intro; ch_details]) as Hbook
    by extracted_by_evaluation.
  split; [split; [exact Hbook|reflexivity]|].
  apply (combine_notebooks_metadata_first_chapter book ch_intro [ch_details] nb_intro);
    [exact Hbook|reflexivity].
Defined.

Lemma combine_notebooks_metadata_first_nonempty_witness :
  Forall (extracted book) [ch_intro; ch_details] ∧
  ∃ doc nbs,
    combine_notebooks book [ch_intro; ch_details] = Ok doc ∧
    Forall2 (loaded book) [ch_intro; ch_details] nbs ∧
    ((Forall (λ nb, nb_metadata nb = ∅) nbs ∧ nb_metadata doc = ∅)
     ∨ (∃ pre nb post,
          nbs = pre ++ nb :: post ∧
          Forall (λ nb', nb_metadata nb' = ∅) pre ∧
          nb_metadata nb ≠ ∅ ∧
          nb_metadata doc = nb_metadata nb)).
Proof.
  assert (Forall (extracted book) [ch_intro; ch_details]) as Hbook
    by extracted_by_evaluation.
  split; [exact Hbook|].
  exact (combine_notebooks_metadata_first_nonempty book [ch_intro; ch_details]
           Hbook).
Defined.

Lemma add_sec_label_units_witness :
  add_sec_label (new_markdown_cell intro_text) "01-intro"
    = Ok [ new_markdown_cell "# Introduction";
           new_latex_cell "\label{sec:01-intro}";
           new_markdown_cell "See the details." ] ∧
  ∃ h heading label tail,
    heading_lines (splitlines intro_text) = Some h ∧
    [ new_markdown_cell "# Introduction";
      new_latex_cell "\label{sec:01-intro}";
      new_markdown_cell "See the details." ] = heading :: label :: tail ∧
    cell_type heading = "markdown" ∧
    splitlines (source heading) = take h (splitlines intro_text) ∧
    metadata heading = ∅ ∧
    ((text_after h (splitlines intro_text) = true ∧
      ∃ r, tail = [r] ∧ cell_type r = "markdown" ∧ metadata r = ∅ ∧
           source r = strip (join NL (drop h (splitlines intro_text))) ∧
           source r ≠ "")
     ∨ (text_after h (splitlines intro_text) = false ∧ tail = [])).
Proof.
  split; [reflexivity|].
  apply (add_sec_label_units (new_markdown_cell intro_text) "01-intro").
  reflexivity.
Defined.

Lemma add_sec_label_empty_source_witness :
  source (new_latex_cell "") = "" ∧
  splitlines (source (new_latex_cell "")) = [] ∧
  add_sec_label (new_latex_cell "") "02-details" = Raise IndexError ∧
  ∀ message,
    add_sec_label (new_latex_cell "") "02-details" ≠ Raise (NoHeader message).
Proof.
  split; [reflexivity|].
  apply (add_sec_label_empty_source (new_latex_cell "")). reflexivity.
Defined.

(** C6, refuted as stated: both chapters lack a heading, the run stops at
    the first one, and its message does not name the second. *)
Lemma NoHeader_names_first_failing_chapter_only :
  ch_details ∈ [ch_intro; ch_details] ∧
  lacks_heading drafts ch_details ∧
  ∃ message,
    combine_notebooks drafts [ch_intro; ch_details]
      = Raise (NoHeader (Some message)) ∧
    message = "Failed to find header in book/01-intro.ipynb" ∧
    contains message (str ch_details) = false ∧
    contains message (name ch_details) = false.
Proof.
  split_and!.
  - apply list_elem_of_In. simpl. auto.
  - exists (nb_plain "nor here"). eexists _, _. split_and!; reflexivity.
  - eexists. split_and!; reflexivity.
Qed.

Lemma combine_notebooks_NoHeader_witness :
  (Forall (extracted half_done) [ch_intro] ∧
   loaded half_done ch_details (nb_plain "nor here") ∧
   cells (nb_plain "nor here") = [new_markdown_cell "nor here"] ∧
   splitlines (source (new_markdown_cell "nor here")) ≠ [] ∧
   heading_lines (splitlines (source (new_markdown_cell "nor here"))) = None) ∧
  ∃ message,
    combine_notebooks half_done ([ch_intro] ++ ch_details :: [])
      = Raise (NoHeader (Some message)) ∧
    message = "Failed to find header in " +:+ str ch_details ∧
    contains message (str ch_details) = true.
Proof.
  assert (Forall (extracted half_done) [ch_intro]) as Hpre
    by extracted_by_evaluation.
  split; [split_and!; [exact Hpre|reflexivity|reflexivity|discriminate|reflexivity]|].
  apply (combine_notebooks_NoHeader half_done [ch_intro] [] ch_details
           (nb_plain "nor here") (new_markdown_cell "nor here") []);
    [exact Hpre|reflexivity|reflexivity|discriminate|reflexivity].
Defined.


(** The chapter list of the small book, whatever the scan order. *)
Example notebook_files_book :
  sorted (glob Fnmatch.fnmatch book_entries book_dir "*-*.ipynb")
  = [ch_intro; ch_details].
Proof. reflexivity. Qed.

Lemma combine_and_convert_no_match_witness :
  (∀ n, n ∈ ["README.md"; "notes.txt"] →
        Fnmatch.fnmatch n (default "*-*.ipynb" None) = false) ∧
  ∃ doc job,
    combine_notebooks book
      (sorted (glob Fnmatch.fnmatch ["README.md"; "notes.txt"] book_dir
                 (default "*-*.ipynb" None)))
      = Ok doc ∧
    cells doc = [] ∧ nb_metadata doc = ∅ ∧
    combine_and_convert book Fnmatch.fnmatch ["README.md"; "notes.txt"] book_dir
      ["out"; "combined"] true None None = Ok job ∧
    job_notebook job = doc.
Proof.
  assert (∀ n, n ∈ ["README.md"; "notes.txt"] →
               Fnmatch.fnmatch n (default "*-*.ipynb" None) = false) as Hnone.
  { intros n Hn. repeat (apply elem_of_cons in Hn as [->|Hn]; [reflexivity|]).
    by apply elem_of_nil in Hn. }
  split; [exact Hnone|].
  exact (combine_and_convert_no_match book Fnmatch.fnmatch
           ["README.md"; "notes.txt"] book_dir ["out"; "combined"] true None None
           Hnone).
Defined.

End Worked.

(** * Further properties of the code *)

(** ** More on Python's string operations *)

Section MoreStrings.
Import Py Spec Notions.

Lemma lstrip_head (s : string) :
  lstrip s = "" ∨ ∃ c t, lstrip s = String c t ∧ isspace c = false.
Proof.
  destruct (blank s) eqn:Hb.
  - left. by apply lstrip_blank.
  - right. by apply lstrip_nonblank.
Qed.

Lemma rstrip_idemp (s : string) : rstrip (rstrip s) = rstrip s.
Proof.
  induction s as [|c s IH]; [done|]. simpl.
  destruct (rstrip s) as [|c' r] eqn:Hr.
  - destruct (isspace c) eqn:Hc; [done|]. simpl. by rewrite Hc.
  - change (rstrip (String c (String c' r)))
      with (match rstrip (String c' r) with
            | EmptyString => if isspace c then "" else String c ""
            | String a r0 => String c (String a r0)
            end).
    by rewrite IH.
Qed.

Lemma lstrip_rstrip_lstrip (s : string) :
  lstrip (rstrip (lstrip s)) = rstrip (lstrip s).
Proof.
  destruct (lstrip_head s) as [->|(c & t & -> & Hc)]; [done|].
  simpl. destruct (rstrip t); rewrite ?Hc; simpl; by rewrite ?Hc.
Qed.

Lemma lstrip_strip (s : string) : lstrip (strip s) = strip s.
Proof. apply lstrip_rstrip_lstrip. Qed.

Lemma rstrip_strip (s : string) : rstrip (strip s) = strip s.
Proof. apply rstrip_idemp. Qed.

Lemma crlf_empty_iff (s : string) : crlf s = "" ↔ s = "".
Proof.
  destruct s as [|c s]; [done|]. simpl.
  by destruct (Ascii.eqb c LF).
Qed.

Lemma splitlines_crlf (s : string) :
  no_CR s = true → splitlines (crlf s) = splitlines s.
Proof.
  induction s as [|c s IH]; [done|].
  cbn [no_CR crlf]. intros [Hc Hs]%andb_prop.
  apply negb_true_iff in Hc. specialize (IH Hs).
  destruct (Ascii.eqb_spec c LF) as [->|Hlf].
  - cbn [splitlines is_linebreak CR LF Ascii.eqb andb Bool.eqb].
    rewrite IH. destruct s as [|c' s']; [done|].
    simpl. done.
  - cbn [splitlines]. rewrite Hc. cbn [andb].
    destruct (is_linebreak c).
    + destruct s as [|c' s']; [done|].
      rewrite <- IH. cbn [crlf].
      by destruct (Ascii.eqb c' LF).
    + by rewrite IH.
Qed.

End MoreStrings.

(** ** More on the heading extractor *)

Section MoreExtractor.
Import Py Pathlib Nbformat Exn Latex Spec Notions.

Lemma add_sec_label_shape (cell : Cell) (nbname : string) (res : list Cell) :
  add_sec_label cell nbname = Ok res →
  ∃ h, heading_lines (splitlines (source cell)) = Some h ∧
       res = heading_unit cell h :: sec_label nbname
               :: (if text_after h (splitlines (source cell))
                   then [remainder_unit cell h] else []).
Proof.
  intros (h & Hh & ->)%add_sec_label_Ok_iff. exists h. split; [done|].
  unfold chapter_units. by rewrite app_nil_r.
Qed.



Lemma string_app_inj_r (x y : string) (c : ascii) :
  x +:+ String c "" = y +:+ String c "" → x = y.
Proof.
  revert y. induction x as [|a x IH]; intros [|b y]; simpl; try done.
  - intros [= _ Hy]. by destruct y.
  - intros [= _ Hx]. by destruct x.
  - intros [= -> Hxy]. f_equal. by apply IH.
Qed.

Lemma sec_label_inj (a b : string) : sec_label a = sec_label b → a = b.
Proof.
  unfold sec_label, new_latex_cell. intros [= Hab].
  change ("" +:+ a +:+ "}") with (a +:+ "}") in Hab.
  change ("" +:+ b +:+ "}") with (b +:+ "}") in Hab.
  by apply string_app_inj_r in Hab.
Qed.

(** X1.  The label comes second.  On success the result has two or three units;
    the second is the raw LaTeX cell "\label{sec:<nbname>}" with metadata
    raw_mimetype = text/latex, and every other unit is a markdown cell:
    the label sits right after the heading, whatever the first unit held. *)
Theorem add_sec_label_label_second (cell : Cell) (nbname : string)
    (res : list Cell) :
  add_sec_label cell nbname = Ok res →
  res !! 1 = Some (sec_label nbname) ∧
  metadata (sec_label nbname) !! "raw_mimetype" = Some "text/latex" ∧
  cell_type (sec_label nbname) = "raw" ∧
  (length res = 2 ∨ length res = 3) ∧
  ∀ i c, res !! i = Some c → i ≠ 1 → cell_type c = "markdown".
Proof.
  intros (h & _ & ->)%add_sec_label_shape.
  split_and!; [done|done|done| |].
  - destruct (text_after _ _); auto.
  - intros [|[|[|i]]] c Hc Hi; [by injection Hc as <-|done| |];
      destruct (text_after _ _); simpl in Hc; try done.
    by injection Hc as <-.
Qed.

(** X2.  The two ways the extractor fails.  It raises IndexError exactly on an
    empty source, and NoHeader (with no message) exactly on a source that
    is not empty and shows neither heading form; it raises nothing else. *)
Theorem add_sec_label_Raise_iff (cell : Cell) (nbname : string) (e : exn) :
  add_sec_label cell nbname = Raise e ↔
  (e = IndexError ∧ source cell = "") ∨
  (e = NoHeader None ∧ source cell ≠ "" ∧
   heading_lines (splitlines (source cell)) = None).
Proof.
  rewrite add_sec_label_cases.
  destruct (splitlines (source cell)) as [|l1 rest] eqn:Hlines.
  - apply splitlines_nil_iff in Hlines. split.
    + intros [= <-]. by left.
    + by intros [[-> _]|(_ & Hne & _)].
  - assert (source cell ≠ "") as Hne.
    { intros Hsrc%splitlines_nil_iff. congruence. }
    destruct (heading_lines (l1 :: rest)) as [h|].
    + split; [done|]. by intros [[_ Hsrc]|(_ & _ & Hnone)].
    + split.
      * intros [= <-]. by right.
      * by intros [[_ Hsrc]|(-> & _ & _)].
Qed.

(** X3.  The intro remainder is trimmed.  When a third unit is produced its
    text is not empty and neither begins nor ends with white space:
    stripping it on the left or on the right changes nothing. *)
Theorem add_sec_label_remainder_stripped (cell : Cell) (nbname : string)
    (res : list Cell) (r : Cell) :
  add_sec_label cell nbname = Ok res → res !! 2 = Some r →
  source r ≠ "" ∧ lstrip (source r) = source r ∧ rstrip (source r) = source r.
Proof.
  intros (h & _ & ->)%add_sec_label_shape Hr.
  destruct (text_after h (splitlines (source cell))) eqn:Hafter; [|done].
  injection Hr as <-. cbn [remainder_unit source].
  split_and!; [|apply lstrip_strip|apply rstrip_strip].
  rewrite strip_empty_iff, blank_join.
  unfold text_after in Hafter. by destruct (forallb blank _).
Qed.


(** X5.  One label per chapter name.  The labels built for two chapters are the
    same exactly when the chapter names are the same. *)
Theorem add_sec_label_label_injective (cell1 cell2 : Cell)
    (nbname1 nbname2 : string) (res1 res2 : list Cell) :
  add_sec_label cell1 nbname1 = Ok res1 →
  add_sec_label cell2 nbname2 = Ok res2 →
  (res1 !! 1 = res2 !! 1 ↔ nbname1 = nbname2).
Proof.
  intros (h1 & _ & ->)%add_sec_label_shape (h2 & _ & ->)%add_sec_label_shape.
  cbn [lookup list_lookup]. split.
  - intros Heq. apply (inj Some) in Heq. by apply sec_label_inj.
  - by intros ->.
Qed.

(** X6.  Line endings do not matter.  Turning every "\n" of a source without
    "\r" into "\r\n" leaves the outcome of the extractor unchanged, units
    and errors alike: the heading and the remainder are rebuilt from the
    lines, joined by "\n". *)
Theorem add_sec_label_crlf (cell : Cell) (nbname : string) :
  no_CR (source cell) = true →
  add_sec_label (with_source cell (crlf (source cell))) nbname
  = add_sec_label cell nbname.
Proof.
  intros Hcr%splitlines_crlf. rewrite !add_sec_label_cases.
  unfold chapter_units, heading_unit, remainder_unit.
  cbn [with_source source metadata]. by rewrite Hcr.
Qed.

Lemma heading_lines_take2 (lines : list string) :
  heading_lines (take 2 lines) = heading_lines lines.
Proof. by destruct lines as [|l1 [|l2 rest]]. Qed.

(** X7.  Only the first two lines decide.  Two first units that agree on their
    first two lines and on their metadata fail in the same way or succeed
    with the same heading unit, whatever follows: a heading further down
    is never looked for. *)
Theorem add_sec_label_first_two_lines (cell1 cell2 : Cell) (nbname : string) :
  take 2 (splitlines (source cell1)) = take 2 (splitlines (source cell2)) →
  metadata cell1 = metadata cell2 →
  (∀ e, add_sec_label cell1 nbname = Raise e ↔
        add_sec_label cell2 nbname = Raise e) ∧
  (∀ res1 res2,
     add_sec_label cell1 nbname = Ok res1 →
     add_sec_label cell2 nbname = Ok res2 →
     res1 !! 0 = res2 !! 0).
Proof.
  intros Htake Hmeta.
  pose proof (heading_lines_take2 (splitlines (source cell1))) as H1.
  pose proof (heading_lines_take2 (splitlines (source cell2))) as H2.
  rewrite Htake, H2 in H1. split.
  - intros e. rewrite !add_sec_label_cases.
    destruct (splitlines (source cell1)) as [|a1 r1],
      (splitlines (source cell2)) as [|a2 r2]; try done.
    rewrite H1. destruct (heading_lines (a1 :: r1)); [|done].
    split; intros [=].
  - intros res1 res2 (h1 & Hh1 & ->)%add_sec_label_shape
      (h2 & Hh2 & ->)%add_sec_label_shape.
    assert (h2 = h1) as -> by congruence.
    cbn [lookup list_lookup]. f_equal. unfold heading_unit. rewrite Hmeta.
    do 2 f_equal.
    destruct (heading_lines_bound _ _ Hh1) as (Hh & _).
    assert (h1 `min` 2 = h1) as Hmin by lia.
    rewrite <- Hmin, <- !take_take. by rewrite Htake.
Qed.

End MoreExtractor.

(** ** More on the combiner *)

Section MoreCombiner.
Import Py Pathlib Nbformat Exn Latex Spec Notions.

Variable fs : gmap string Notebook.

Lemma append_doc_new_r (d : Notebook) : append_doc d new_notebook = d.
Proof.
  destruct d as [cs m]. unfold append_doc. cbn [cells nb_metadata new_notebook].
  rewrite app_nil_r. by case_bool_decide; subst.
Qed.

Lemma append_doc_new_l (d : Notebook) : append_doc new_notebook d = d.
Proof. by destruct d. Qed.

Lemma append_doc_assoc (d1 d2 d3 : Notebook) :
  append_doc (append_doc d1 d2) d3 = append_doc d1 (append_doc d2 d3).
Proof.
  unfold append_doc. cbn [cells nb_metadata]. rewrite app_assoc.
  f_equal. by repeat case_bool_decide.
Qed.

(** A turn of the loop on an accumulator is the same turn on the empty
    document, appended to the accumulator. *)
Lemma combine_step_acc (acc : Notebook) (f : Path) :
  combine_step fs acc f
  = (d ← combine_step fs new_notebook f; Ok (append_doc acc d)).
Proof.
  unfold combine_step.
  destruct (nbformat_read fs (str f)) as [nb|e]; [|done].
  cbn [mbind result_bind].
  destruct (except_NoHeader _ _) as [labelled|e]; [|done].
  cbn [mbind result_bind]. unfold extend, set_nb_metadata, append_doc.
  cbn [cells nb_metadata new_notebook app].
  rewrite (bool_decide_eq_true_2 (∅ = ∅)) by done.
  cbn [mbind result_bind cells nb_metadata].
  rewrite <- app_assoc. by case_bool_decide.
Qed.

Lemma combine_loop_acc (files : list Path) :
  ∀ acc, combine_loop fs acc files
         = (d ← combine_loop fs new_notebook files; Ok (append_doc acc d)).
Proof.
  induction files as [|f files IH]; intros acc.
  - cbn [combine_loop mbind result_bind]. by rewrite append_doc_new_r.
  - cbn [combine_loop]. rewrite combine_step_acc.
    destruct (combine_step fs new_notebook f) as [d1|e]; [|done].
    cbn [mbind result_bind]. rewrite (IH (append_doc acc d1)), (IH d1).
    destruct (combine_loop fs new_notebook files) as [d2|e]; [|done].
    cbn [mbind result_bind]. by rewrite append_doc_assoc.
Qed.

Lemma combine_loop_app (files1 files2 : list Path) :
  ∀ acc, combine_loop fs acc (files1 ++ files2)
         = (acc' ← combine_loop fs acc files1; combine_loop fs acc' files2).
Proof.
  induction files1 as [|f files1 IH]; intros acc; [done|].
  cbn [app combine_loop].
  destruct (combine_step fs acc f) as [acc'|e]; [|done].
  cbn [mbind result_bind]. apply IH.
Qed.

(** X8.  Combining is compositional.  Combining two lists one after the other
    is combining each and appending the documents: the units of the first
    then those of the second, with the metadata of the first unless it is
    empty.  A failure in the first list is raised before the second list
    is read. *)
Theorem combine_notebooks_app (files1 files2 : list Path) :
  combine_notebooks fs (files1 ++ files2)
  = (d1 ← combine_notebooks fs files1;
     d2 ← combine_notebooks fs files2;
     Ok (append_doc d1 d2)).
Proof.
  unfold combine_notebooks. rewrite combine_loop_app.
  destruct (combine_loop fs new_notebook files1) as [d1|e]; [|done].
  cbn [mbind result_bind]. apply combine_loop_acc.
Qed.

Lemma add_sec_label_outcome (first : Cell) (nbname : string) :
  (source first = "" ∧ add_sec_label first nbname = Raise IndexError)
  ∨ (source first ≠ "" ∧ heading_lines (splitlines (source first)) = None ∧
     add_sec_label first nbname = Raise (NoHeader None))
  ∨ (source first ≠ "" ∧
     ∃ h units, heading_lines (splitlines (source first)) = Some h ∧
                add_sec_label first nbname = Ok units).
Proof.
  rewrite add_sec_label_cases.
  destruct (splitlines (source first)) as [|l1 rest] eqn:Hlines.
  - left. by apply splitlines_nil_iff in Hlines.
  - assert (source first ≠ "") as Hne.
    { intros Hsrc%splitlines_nil_iff. congruence. }
    destruct (heading_lines (l1 :: rest)) as [h|]; eauto 10.
Qed.

Lemma combine_step_Raise_iff (acc : Notebook) (X : Path) (e : exn) :
  combine_step fs acc X = Raise e ↔ chapter_failure fs X e.
Proof.
  unfold combine_step, nbformat_read, chapter_failure, getitem.
  destruct (fs !! str X) as [nb|] eqn:Hnb; cbn [mbind result_bind].
  2:{ split.
      - intros [= <-]. by left.
      - intros [[-> _]|[(_ & ? & ? & _)|(_ & ? & ? & ? & ? & _)]]; done. }
  destruct (cells nb) as [|first rest] eqn:Hcells;
    cbn [lookup list_lookup mbind result_bind except_NoHeader].
  { split.
    - intros [= <-]. right; left. split; [done|]. exists nb. auto.
    - intros [[_ ?]|[(-> & _)|(_ & ? & ? & ? & ? & ? & _)]];
        try done; simplify_eq; congruence. }
  destruct (add_sec_label_outcome first (stem X))
    as [(Hsrc & ->)|[(Hsrc & Hnone & ->)|(Hsrc & h & units & Hh & ->)]];
    cbn [mbind result_bind except_NoHeader].
  - split.
    + intros [= <-]. right; left. split; [done|]. exists nb. eauto 6.
    + intros [[_ ?]|[(-> & _)|(_ & ? & ? & ? & ? & ? & ? & _)]];
        try done; simplify_eq; congruence.
  - split.
    + intros [= <-]. right; right. split; [done|]. exists nb, first, rest. auto.
    + intros [[_ ?]|[(_ & ? & ? & [?|(? & ? & ? & ?)])|(-> & _)]];
        try done; simplify_eq; congruence.
  - split.
    + unfold extend, set_nb_metadata. by case_bool_decide.
    + intros [[_ ?]|[(_ & ? & ? & [?|(? & ? & ? & ?)])
                    |(_ & ? & ? & ? & ? & ? & ? & ?)]];
        try done; simplify_eq; congruence.
Qed.

(** X9.  Every failure of the combiner has one cause.  The combiner raises [e]
    exactly when the list splits at a chapter [X] such that all chapters
    before [X] are extracted and [X] fails with [e]: ReadError when the
    notebook cannot be read; IndexError when it has no cell or its first
    cell is empty (no filename is attached in that case); NoHeader with the
    message "Failed to find header in <X>" when its first cell has text
    but no heading.  The chapters after [X] play no part. *)
Theorem combine_notebooks_Raise_iff (files : list Path) (e : exn) :
  combine_notebooks fs files = Raise e ↔
  ∃ pre X post,
    files = pre ++ X :: post ∧ Forall (extracted fs) pre ∧
    chapter_failure fs X e.
Proof.
  unfold combine_notebooks. split.
  - generalize new_notebook as acc.
    induction files as [|f files IH]; intros acc; [done|].
    cbn [combine_loop].
    destruct (combine_step fs acc f) as [acc'|e'] eqn:Hstep;
      cbn [mbind result_bind].
    + intros (pre & X & post & -> & Hpre & HX)%IH.
      exists (f :: pre), X, post. split_and!; [done| |done].
      constructor; [|done]. by eapply combine_step_Ok_extracted.
    + intros [= <-]. exists [], f, files. split_and!; [done|constructor|].
      by apply (combine_step_Raise_iff acc).
  - intros (pre & X & post & -> & Hpre & HX).
    rewrite combine_loop_app.
    destruct (extracted_chunks fs pre Hpre) as (chunks & nbs & Hchunks & Hnbs).
    rewrite (combine_loop_chunks fs pre _ chunks nbs Hchunks Hnbs).
    cbn [mbind result_bind combine_loop].
    by rewrite (proj2 (combine_step_Raise_iff _ X e) HX).
Qed.

Lemma chunk_length (f : Path) (chunk : list Cell) (nb : Notebook) :
  chapter_chunk fs f chunk → loaded fs f nb →
  length (cells nb) + 1 ≤ length chunk ≤ length (cells nb) + 2.
Proof.
  intros (nb' & first & rest & h & Hnb' & Hcells & _ & ->) Hnb.
  unfold loaded in *. assert (nb' = nb) as -> by congruence.
  rewrite Hcells. unfold chapter_units.
  destruct (text_after _ _); simpl; lia.
Qed.

Lemma chunks_length (files : list Path) :
  ∀ chunks nbs,
    Forall2 (chapter_chunk fs) files chunks → Forall2 (loaded fs) files nbs →
    sum_list_with (λ nb, length (cells nb)) nbs + length files
      ≤ length (concat chunks)
      ≤ sum_list_with (λ nb, length (cells nb)) nbs + 2 * length files.
Proof.
  induction files as [|f files IH]; intros chunks nbs Hchunks Hnbs.
  - inversion Hchunks; inversion Hnbs; subst. simpl. lia.
  - inversion Hchunks as [|? chunk ? chunks' Hchunk Hchunks']; subst.
    inversion Hnbs as [|? nb ? nbs' Hnb Hnbs']; subst.
    pose proof (chunk_length f chunk nb Hchunk Hnb).
    specialize (IH _ _ Hchunks' Hnbs').
    cbn [concat sum_list_with length]. rewrite length_app. lia.
Qed.

(** X10.  The size of the combined document.  Each chapter contributes its own
    units plus one (the label) or two (label and intro remainder): with
    [n] chapters holding [m] units in all, the document has between
    [m + n] and [m + 2 n] units. *)
Theorem combine_notebooks_length (files : list Path) :
  Forall (extracted fs) files →
  ∃ doc nbs,
    combine_notebooks fs files = Ok doc ∧
    Forall2 (loaded fs) files nbs ∧
    sum_list_with (λ nb, length (cells nb)) nbs + length files
      ≤ length (cells doc)
      ≤ sum_list_with (λ nb, length (cells nb)) nbs + 2 * length files.
Proof.
  intros (chunks & nbs & Hchunks & Hnbs)%extracted_chunks.
  eexists _, nbs. split; [by apply combine_loop_chunks|]. split; [done|].
  cbn [cells new_notebook app]. by apply chunks_length.
Qed.

End MoreCombiner.

(** ** More on the chapter loader *)

Section MoreLoader.
Import Py Pathlib Nbformat Exn Latex Spec Notions.

Lemma string_app_cons (c : ascii) (x y : string) :
  String c x +:+ y = String c (x +:+ y).
Proof. reflexivity. Qed.

Lemma string_app_nil_l (y : string) : "" +:+ y = y.
Proof. reflexivity. Qed.

Lemma string_app_assoc (x y z : string) : (x +:+ y) +:+ z = x +:+ y +:+ z.
Proof.
  induction x as [|c x IH]; [done|].
  by rewrite !string_app_cons, IH.
Qed.

Lemma string_length_app (x y : string) :
  String.length (x +:+ y) = String.length x + String.length y.
Proof.
  induction x as [|c x IH]; [done|].
  rewrite string_app_cons. simpl. by rewrite IH.
Qed.

Lemma substring_app (x y : string) :
  String.substring 0 (String.length x) (x +:+ y) = x.
Proof.
  induction x as [|c x IH].
  - rewrite string_app_nil_l. by destruct y.
  - rewrite string_app_cons. simpl. by rewrite IH.
Qed.

Lemma rfind_app (c : ascii) (x y : string) (i : nat) :
  rfind c y = Some i → rfind c (x +:+ y) = Some (String.length x + i).
Proof.
  intros Hy. induction x as [|a x IH]; [done|].
  rewrite string_app_cons. simpl. by rewrite IH.
Qed.

(** The stem of a name that ends in a suffix without dots. *)
Lemma stem_suffix (dir : Path) (x suffix : string) :
  x ≠ "" → rfind "." suffix = Some 0 → 2 ≤ String.length suffix →
  stem (joinpath dir (x +:+ suffix)) = x.
Proof.
  intros Hx Hsuffix Hlen. unfold stem. rewrite name_joinpath.
  rewrite (rfind_app _ _ _ _ Hsuffix), Nat.add_0_r, string_length_app.
  assert (0 < String.length x) by (destruct x; [done|simpl; lia]).
  rewrite (proj2 (Nat.ltb_lt 0 _)) by done.
  rewrite (proj2 (Nat.ltb_lt _ _)) by lia.
  apply substring_app.
Qed.

Lemma fnmatch_star_unfold (pat n : string) :
  Fnmatch.fnmatch_chars (String "*" pat) n
  = Fnmatch.fnmatch_chars pat n
    || match n with
       | EmptyString => false
       | String _ n' => Fnmatch.fnmatch_chars (String "*" pat) n'
       end.
Proof. by destruct n. Qed.

(** A star matches any prefix of the name. *)
Lemma fnmatch_star_iff (pat n : string) :
  Fnmatch.fnmatch_chars (String "*" pat) n = true ↔
  ∃ a b, n = a +:+ b ∧ Fnmatch.fnmatch_chars pat b = true.
Proof.
  induction n as [|c n IH]; rewrite fnmatch_star_unfold, orb_true_iff.
  - split.
    + intros [Hm|?]; [|done]. by exists "", "".
    + intros (a & b & Hab & Hm). left.
      destruct a; [by rewrite string_app_nil_l in Hab; subst|done].
  - rewrite IH. split.
    + intros [Hm|(a & b & -> & Hm)].
      * by exists "", (String c n).
      * by exists (String c a), b.
    + intros ([|c' a] & b & Hab & Hm).
      * left. rewrite string_app_nil_l in Hab. by subst.
      * right. rewrite string_app_cons in Hab. injection Hab as -> ->. eauto.
Qed.

(** A character other than the two wildcards matches itself only. *)
Lemma fnmatch_char (c : ascii) (pat n : string) :
  c ≠ "*"%char → c ≠ "?"%char →
  Fnmatch.fnmatch_chars (String c pat) n
  = match n with
    | EmptyString => false
    | String d n' => Ascii.eqb c d && Fnmatch.fnmatch_chars pat n'
    end.
Proof.
  intros Hstar Hquestion.
  destruct c as [[] [] [] [] [] [] [] []]; try done.
Qed.

Lemma fnmatch_ipynb (n : string) :
  Fnmatch.fnmatch_chars ".ipynb" n = true ↔ n = ".ipynb".
Proof.
  split; [|by intros ->].
  do 6 (destruct n as [|? n]; [done|];
        rewrite fnmatch_char by done;
        intros [->%Ascii.eqb_eq Hn]%andb_prop; revert Hn).
  by destruct n.
Qed.

Lemma default_pattern_iff (n : string) :
  Fnmatch.fnmatch n "*-*.ipynb" = true ↔
  ∃ a b, n = a +:+ "-" +:+ b +:+ ".ipynb".
Proof.
  unfold Fnmatch.fnmatch. rewrite fnmatch_star_iff. split.
  - intros (a & r & -> & Hr). rewrite fnmatch_char in Hr by done.
    destruct r as [|d r]; [done|].
    apply andb_prop in Hr as [<-%Ascii.eqb_eq Hr].
    apply fnmatch_star_iff in Hr as (b & t & -> & ->%fnmatch_ipynb).
    by exists a, b.
  - intros (a & b & ->). exists a, ("-" +:+ b +:+ ".ipynb"). split; [done|].
    rewrite string_app_cons, fnmatch_char by done. cbn [Ascii.eqb Bool.eqb andb].
    rewrite string_app_nil_l. apply fnmatch_star_iff. by exists b, ".ipynb".
Qed.

(** X11.  Which entries are chapters by default.  Run without a pattern, the
    loader takes exactly the entries named [a-b.ipynb], for any texts [a]
    and [b] (empty too, and with further hyphens or dots): the name holds
    a hyphen before the closing ".ipynb". *)
Theorem default_chapter_files (entries : list string) (source_dir : Path)
    (p : Path) :
  p ∈ sorted (glob Fnmatch.fnmatch entries source_dir (default "*-*.ipynb" None))
  ↔ ∃ a b, a +:+ "-" +:+ b +:+ ".ipynb" ∈ entries ∧
           p = joinpath source_dir (a +:+ "-" +:+ b +:+ ".ipynb").
Proof.
  rewrite sorted_Permutation, elem_of_glob. cbn [default]. split.
  - intros (n & Hin & (a & b & ->)%default_pattern_iff & ->). eauto.
  - intros (a & b & Hin & ->). eexists. split_and!; [done| |done].
    apply default_pattern_iff. eauto.
Qed.

(** X12.  Chapter names under the default pattern.  The chapter name used for
    the label of an entry [a-b.ipynb] is [a-b]; so the entry is its chapter
    name followed by ".ipynb", and two default chapters get the same label
    only if they are the same entry. *)
Theorem default_chapter_labels (source_dir : Path) (n1 n2 : string) :
  Fnmatch.fnmatch n1 "*-*.ipynb" = true →
  Fnmatch.fnmatch n2 "*-*.ipynb" = true →
  stem (joinpath source_dir n1) +:+ ".ipynb" = n1 ∧
  (sec_label (stem (joinpath source_dir n1))
     = sec_label (stem (joinpath source_dir n2)) → n1 = n2).
Proof.
  intros (a1 & b1 & ->)%default_pattern_iff (a2 & b2 & ->)%default_pattern_iff.
  assert (∀ a b, stem (joinpath source_dir (a +:+ "-" +:+ b +:+ ".ipynb"))
                 = a +:+ "-" +:+ b) as Hstem.
  { intros a b.
    replace (a +:+ "-" +:+ b +:+ ".ipynb") with ((a +:+ "-" +:+ b) +:+ ".ipynb")
      by (by rewrite !string_app_assoc).
    apply stem_suffix; [|done|simpl; lia].
    intros Hnil%(f_equal String.length).
    rewrite string_length_app in Hnil. simpl in Hnil. lia. }
  rewrite !Hstem. split.
  - by rewrite !string_app_assoc.
  - intros Heq%sec_label_inj.
    by rewrite <- (string_app_assoc a1), <- (string_app_assoc (a1 +:+ "-")),
      (string_app_assoc a1), Heq, !string_app_assoc.
Qed.

Section AnyMatcher.

Variable fs : gmap string Notebook.
Variable fnmatch : string → string → bool.

(** X13.  Entries that do not match are ignored.  Two directory scans with the
    same matching entries, in any order and among any other entries, give
    the same run: same chapter list, same document or same error. *)
Theorem combine_and_convert_matching_only (entries entries' : list string)
    (source_dir output_file : Path) (pdf : bool) (template_file : option Path)
    (pattern_arg : option string) :
  filter (λ n, fnmatch n (default "*-*.ipynb" pattern_arg) = true) entries
    ≡ₚ filter (λ n, fnmatch n (default "*-*.ipynb" pattern_arg) = true) entries' →
  combine_and_convert fs fnmatch entries source_dir output_file pdf
    template_file pattern_arg
  = combine_and_convert fs fnmatch entries' source_dir output_file pdf
      template_file pattern_arg.
Proof.
  intros Hperm. unfold combine_and_convert.
  set (pattern := default "*-*.ipynb" pattern_arg) in *.
  rewrite (sorted_unique (glob fnmatch entries source_dir pattern)
             (glob fnmatch entries' source_dir pattern)); [done|].
  unfold glob. by rewrite Hperm.
Qed.

End AnyMatcher.

End MoreLoader.

(** ** The template written by [add_preamble] *)

Section MorePreamble.
Import Py Pathlib Exn Spec Preamble.







End MorePreamble.

(** ** Worked examples for the further properties *)

Section MoreWorked.
Import Py Pathlib Nbformat Exn Latex Spec Notions Preamble Examples MoreExamples.

Lemma add_sec_label_label_second_witness :
  let cell := new_markdown_cell intro_text in
  let res := [ new_markdown_cell "# Introduction"; sec_label "01-intro";
               new_markdown_cell "See the details." ] in
  add_sec_label cell "01-intro" = Ok res ∧
  res !! 1 = Some (sec_label "01-intro") ∧
  metadata (sec_label "01-intro") !! "raw_mimetype" = Some "text/latex" ∧
  cell_type (sec_label "01-intro") = "raw" ∧
  (length res = 2 ∨ length res = 3) ∧
  ∀ i c, res !! i = Some c → i ≠ 1 → cell_type c = "markdown".
Proof.
  split; [reflexivity|].
  apply (add_sec_label_label_second (new_markdown_cell intro_text) "01-intro").
  reflexivity.
Defined.

Lemma add_sec_label_remainder_stripped_witness :
  let cell := new_markdown_cell intro_text in
  let r := new_markdown_cell "See the details." in
  let res := [ new_markdown_cell "# Introduction"; sec_label "01-intro"; r ] in
  (add_sec_label cell "01-intro" = Ok res ∧ res !! 2 = Some r) ∧
  source r ≠ "" ∧ lstrip (source r) = source r ∧ rstrip (source r) = source r.
Proof.
  split; [split; reflexivity|].
  eapply (add_sec_label_remainder_stripped (new_markdown_cell intro_text)
            "01-intro"); reflexivity.
Defined.


Lemma add_sec_label_label_injective_witness :
  let res1 := [ new_markdown_cell "# Introduction"; sec_label "01-intro";
                new_markdown_cell "See the details." ] in
  let res2 := [ new_markdown_cell details_text; sec_label "02-details" ] in
  (add_sec_label (new_markdown_cell intro_text) "01-intro" = Ok res1 ∧
   add_sec_label (new_markdown_cell details_text) "02-details" = Ok res2) ∧
  (res1 !! 1 = res2 !! 1 ↔ "01-intro" = "02-details").
Proof.
  split; [split; reflexivity|].
  eapply (add_sec_label_label_injective (new_markdown_cell intro_text)
            (new_markdown_cell details_text)); reflexivity.
Defined.

Lemma add_sec_label_crlf_witness :
  let cell := new_markdown_cell intro_text in
  no_CR (source cell) = true ∧
  add_sec_label (with_source cell (crlf (source cell))) "01-intro"
  = add_sec_label cell "01-intro".
Proof.
  split; [reflexivity|].
  apply (add_sec_label_crlf (new_markdown_cell intro_text) "01-intro").
  reflexivity.
Defined.

Lemma add_sec_label_first_two_lines_witness :
  let cell1 := new_markdown_cell intro_text in
  let cell2 := new_markdown_cell intro_variant in
  (take 2 (splitlines (source cell1)) = take 2 (splitlines (source cell2)) ∧
   metadata cell1 = metadata cell2) ∧
  (∀ e, add_sec_label cell1 "01-intro" = Raise e ↔
        add_sec_label cell2 "01-intro" = Raise e) ∧
  (∀ res1 res2,
     add_sec_label cell1 "01-intro" = Ok res1 →
     add_sec_label cell2 "01-intro" = Ok res2 →
     res1 !! 0 = res2 !! 0).
Proof.
  split; [split; reflexivity|].
  apply (add_sec_label_first_two_lines (new_markdown_cell intro_text)
           (new_markdown_cell intro_variant) "01-intro"); reflexivity.
Defined.

Lemma combine_notebooks_length_witness :
  Forall (extracted book) [ch_intro; ch_details] ∧
  ∃ doc nbs,
    combine_notebooks book [ch_intro; ch_details] = Ok doc ∧
    Forall2 (loaded book) [ch_intro; ch_details] nbs ∧
    sum_list_with (λ nb, length (cells nb)) nbs + length [ch_intro; ch_details]
      ≤ length (cells doc)
      ≤ sum_list_with (λ nb, length (cells nb)) nbs
        + 2 * length [ch_intro; ch_details].
Proof.
  assert (Forall (extracted book) [ch_intro; ch_details]) as Hbook
    by extracted_by_evaluation.
  split; [exact Hbook|].
  exact (combine_notebooks_length book [ch_intro; ch_details] Hbook).
Defined.

(** The failure of the drafts, with its cause. *)
Example combine_notebooks_drafts_failure :
  combine_notebooks drafts [ch_intro; ch_details]
    = Raise (NoHeader (Some "Failed to find header in book/01-intro.ipynb")) ∧
  combine_notebooks book [ch_intro; ["book"; "03-missing.ipynb"]]
    = Raise ReadError.
Proof. by split. Qed.

Lemma default_chapter_labels_witness :
  (Fnmatch.fnmatch "01-intro.ipynb" "*-*.ipynb" = true ∧
   Fnmatch.fnmatch "02-details.ipynb" "*-*.ipynb" = true) ∧
  stem (joinpath book_dir "01-intro.ipynb") +:+ ".ipynb" = "01-intro.ipynb" ∧
  (sec_label (stem (joinpath book_dir "01-intro.ipynb"))
     = sec_label (stem (joinpath book_dir "02-details.ipynb")) →
   "01-intro.ipynb" = "02-details.ipynb").
Proof.
  split; [split; reflexivity|].
  apply (default_chapter_labels book_dir "01-intro.ipynb" "02-details.ipynb");
    reflexivity.
Defined.

Lemma combine_and_convert_matching_only_witness :
  filter (λ n, Fnmatch.fnmatch n (default "*-*.ipynb" None) = true) book_entries
    ≡ₚ filter (λ n, Fnmatch.fnmatch n (default "*-*.ipynb" None) = true)
         ["01-intro.ipynb"; "02-details.ipynb"; "notes.txt"] ∧
  combine_and_convert book Fnmatch.fnmatch book_entries book_dir
    ["out"; "combined"] false None None
  = combine_and_convert book Fnmatch.fnmatch
      ["01-intro.ipynb"; "02-details.ipynb"; "notes.txt"] book_dir
      ["out"; "combined"] false None None.
Proof.
  assert (filter (λ n, Fnmatch.fnmatch n (default "*-*.ipynb" None) = true)
            book_entries
          ≡ₚ filter (λ n, Fnmatch.fnmatch n (default "*-*.ipynb" None) = true)
               ["01-intro.ipynb"; "02-details.ipynb"; "notes.txt"]) as Hperm
    by (vm_compute; apply perm_swap).
  split; [exact Hperm|].
  exact (combine_and_convert_matching_only book Fnmatch.fnmatch book_entries
           ["01-intro.ipynb"; "02-details.ipynb"; "notes.txt"] book_dir
           ["out"; "combined"] false None None Hperm).
Defined.


End MoreWorked.
